(** * Medicine-dispenser backend: dose logging, event queries and adherence
    statistics (src/app.py, src/med_disp/app.py)

    The Flask handlers [log_dose], [get_events] and [get_statistics] are
    embedded as functions from the request, the server's environment and the
    [dose_log] table to a response (and, for [log_dose], the new table).
    The relational engine the handlers talk to is modelled by list functions
    that implement the SQL text of each query. *)

From Stdlib Require Import ZArith List String Ascii Lia Bool.
From Stdlib Require Import Sorting.Sorted.
From Stdlib Require Import Floats.SpecFloat.
From stdpp Require Import gmap strings list.

Local Open Scope Z_scope.

(** ** Python values that cross the HTTP boundary *)

(** The value [request.get_json()] hands to the handler.  Numbers are the
    integers of the wire format. *)
#[local] Unset Elimination Schemes.
Inductive json : Type :=
  | JNull
  | JBool (b : bool)
  | JNum (n : Z)
  | JStr (s : string)
  | JArr (l : list json)
  | JObj (m : gmap string json).
#[local] Set Elimination Schemes.

(** Exceptions the handlers can meet. *)
Inductive py_exn : Type :=
  | TypeError
  | AttributeError
  | ValueError (literal : string)
  | OverflowError
  | ZeroDivisionError
  | DatabaseError (msg : string).

(** Code that may raise: the exception or the value, with the sequencing
    of statements. *)
Definition bind {A B : Type} (m : py_exn + A) (k : A -> py_exn + B)
  : py_exn + B :=
  match m with
  | inl e => inl e
  | inr a => k a
  end.

Notation "'let?' x := m 'in' k" := (bind m (fun x => k))
  (at level 10, x name, m at level 100, k at level 200).
Notation "'let?' '_' := m 'in' k" := (bind m (fun _ => k))
  (at level 10, m at level 100, k at level 200).

(** ** Reading numbers out of text *)

Module Text.

(** The value of a decimal digit character. *)
Definition digit (c : ascii) : option Z :=
  let n := Z.of_nat (nat_of_ascii c) in
  if (48 <=? n) && (n <=? 57) then Some (n - 48) else None.

Fixpoint digits_from (acc : Z) (s : string) : option Z :=
  match s with
  | EmptyString => Some acc
  | String c rest =>
      match digit c with
      | Some d => digits_from (10 * acc + d) rest
      | None => None
      end
  end.

(** A non-empty run of decimal digits, read as a number. *)
Definition number (s : string) : option Z :=
  match s with
  | EmptyString => None
  | _ => digits_from 0 s
  end.

(** An optional sign in front of [number]. *)
Definition signed_number (s : string) : option Z :=
  match s with
  | String "-" rest => Z.opp <$> number rest
  | String "+" rest => number rest
  | _ => number s
  end.

(** Leading and trailing characters that [sp] holds for are dropped. *)
Fixpoint lstrip (sp : ascii -> bool) (s : string) : string :=
  match s with
  | String c rest => if sp c then lstrip sp rest else s
  | EmptyString => s
  end.

Fixpoint rev_onto (acc s : string) : string :=
  match s with
  | EmptyString => acc
  | String c rest => rev_onto (String c acc) rest
  end.

Definition strip (sp : ascii -> bool) (s : string) : string :=
  rev_onto "" (lstrip sp (rev_onto "" (lstrip sp s))).

End Text.

(** ** The calendar *)

Module Calendar.

Definition usec_per_second : Z := 1000000.
Definition usec_per_day : Z := 86400 * usec_per_second.

Definition is_leap (y : Z) : bool :=
  ((y mod 4 =? 0) && negb (y mod 100 =? 0)) || (y mod 400 =? 0).

Definition days_in_month (y m : Z) : Z :=
  if m =? 2 then (if is_leap y then 29 else 28)
  else if (m =? 4) || (m =? 6) || (m =? 9) || (m =? 11) then 30
  else 31.

(** Days from 1970-01-01 to a date of the Gregorian calendar. *)
Definition days_from_civil (y m d : Z) : Z :=
  let y' := if m <=? 2 then y - 1 else y in
  let era := y' / 400 in
  let yoe := y' - era * 400 in
  let mp := (m + 9) mod 12 in
  let doy := (153 * mp + 2) / 5 + d - 1 in
  let doe := yoe * 365 + yoe / 4 - yoe / 100 + doy in
  era * 146097 + doe - 719468.

(** Midnight at the start of a day, as a timestamp. *)
Definition midnight (day : Z) : Z := day * usec_per_day.

(** [datetime.min] and [datetime.max]. *)
Definition datetime_min : Z := midnight (days_from_civil 1 1 1).
Definition datetime_max : Z :=
  midnight (days_from_civil 9999 12 31 + 1) - 1.

End Calendar.

(** ** Python operations the handlers use *)

Module Py.

(** [bool(x)]: the truth value Python gives a decoded JSON value. *)
Definition truthy (x : json) : bool :=
  match x with
  | JNull => false
  | JBool b => b
  | JNum n => negb (n =? 0)
  | JStr s => negb (String.eqb s "")
  | JArr l => match l with [] => false | _ => true end
  | JObj m => negb (bool_decide (m = ∅))
  end.

(** [needle in haystack] on strings: substring test. *)
Fixpoint substring_of (needle hay : string) : bool :=
  String.prefix needle hay ||
  match hay with
  | EmptyString => false
  | String _ rest => substring_of needle rest
  end.

(** [x == JStr k] for the elements of a decoded JSON list. *)
Definition eq_str (k : string) (x : json) : bool :=
  match x with
  | JStr s => String.eqb k s
  | _ => false
  end.

(** [k in x]: key membership on a dict, element membership on a list,
    substring on a string; the other values are not containers. *)
Definition contains (k : string) (x : json) : py_exn + bool :=
  match x with
  | JObj m => inr (bool_decide (is_Some (m !! k)))
  | JArr l => inr (existsb (eq_str k) l)
  | JStr s => inr (substring_of k s)
  | JNull | JBool _ | JNum _ => inl TypeError
  end.

(** [x.get(k)]: only a dict has the method; a missing key gives [None],
    which is how Python also presents a JSON null. *)
Definition get (k : string) (x : json) : py_exn + json :=
  match x with
  | JObj m => inr (default JNull (m !! k))
  | _ => inl AttributeError
  end.

(** The characters [int()] skips around the digits of ASCII text. *)
Definition is_space (c : ascii) : bool :=
  let n := nat_of_ascii c in
  (Nat.eqb n 32) || (Nat.leb 9 n && Nat.leb n 13).

(** The digits of an [int] literal: single underscores may separate
    digits. *)
Fixpoint digits_from (acc : Z) (after_digit : bool) (s : string)
  : option Z :=
  match s with
  | EmptyString => if after_digit then Some acc else None
  | String c rest =>
      if Ascii.eqb c "_" then
        if after_digit then digits_from acc false rest else None
      else
        match Text.digit c with
        | Some d => digits_from (10 * acc + d) true rest
        | None => None
        end
  end.

(** [int(s)] on a string of ASCII text: surrounding whitespace, an
    optional sign, decimal digits.  Two things [int()] does are left out:
    on text beyond ASCII it also reads the other decimal digits of
    Unicode, and from Python 3.11 on it refuses text of more than 4300
    digits. *)
Definition int_of_str (s : string) : py_exn + Z :=
  let body := Text.strip is_space s in
  let parsed :=
    match body with
    | String "-" rest => Z.opp <$> digits_from 0 false rest
    | String "+" rest => digits_from 0 false rest
    | _ => digits_from 0 false body
    end in
  match parsed with
  | Some n => inr n
  | None => inl (ValueError s)
  end.

(** [t - timedelta(days=n)] on a [datetime]: both the [timedelta] and
    the result must be in range. *)
Definition minus_days (t n : Z) : py_exn + Z :=
  if (n <? -999999999) || (999999999 <? n) then inl OverflowError
  else
    let t' := t - n * Calendar.usec_per_day in
    if (t' <? Calendar.datetime_min) || (Calendar.datetime_max <? t')
    then inl OverflowError
    else inr t'.

End Py.

(** ** The event store *)

(** One row of [dose_log(id, event_type, dose_number, timestamp)].
    Timestamps are microseconds since the epoch. *)
Record dose_event : Type := mk_event {
  id : Z;
  event_type : string;
  dose_number : option Z;
  timestamp : Z
}.

(** The table together with the sequence behind its [id] column. *)
Record dose_log : Type := mk_log {
  rows : list dose_event;
  next_id : Z
}.

(** What a request finds around it: whether the database can be reached
    and answers ([db_fault] carries the driver's message when not), and the
    clock. *)
Record server : Type := mk_server {
  db_fault : option string;
  now : Z
}.

(** ** Python's [float]: IEEE 754 binary64 *)

Module Float64.

Definition prec : Z := 53.
Definition emax : Z := 1024.

(** An integer as the unrounded pair (mantissa, exponent 0). *)
Definition exact (n : Z) : spec_float :=
  match n with
  | Z0 => S754_zero false
  | Zpos p => S754_finite false p 0
  | Zneg p => S754_finite true p 0
  end.

(** [float(n)] *)
Definition of_int (n : Z) : spec_float := binary_normalize prec emax n 0 false.

(** [a / b] on two [int]s: the quotient rounded once, to nearest even. *)
Definition int_truediv (a b : Z) : py_exn + spec_float :=
  if b =? 0 then inl ZeroDivisionError
  else inr (SFdiv prec emax (exact a) (exact b)).

(** [x * n] with [x] a float and [n] an int. *)
Definition mul_int (x : spec_float) (n : Z) : spec_float :=
  SFmul prec emax x (of_int n).

(** The integer nearest to [n / d] for [0 < d], ties to even. *)
Definition nearest_even (n d : Z) : Z :=
  let q := n / d in
  match 2 * (n mod d) ?= d with
  | Lt => q
  | Gt => q + 1
  | Eq => if Z.even q then q else q + 1
  end.

(** The float a decimal literal with [places] digits after the point
    denotes: the nearest one to [k / 10 ^ places]. *)
Definition of_decimal (k : Z) (places : nat) : spec_float :=
  SFdiv prec emax (exact k) (exact (10 ^ Z.of_nat places)).

(** [round(x, ndigits)] for [0 <= ndigits]: the value of [x] is rounded
    to a decimal with [ndigits] places (ties, which are exact there, to
    even) and the decimal is read back as a float. *)
Definition round (x : spec_float) (ndigits : nat) : spec_float :=
  match x with
  | S754_finite s m e =>
      let p := 10 ^ Z.of_nat ndigits in
      let k :=
        if 0 <=? e then Zpos m * 2 ^ e * p
        else nearest_even (Zpos m * p) (2 ^ (- e)) in
      if k =? 0 then S754_zero s
      else of_decimal (if s then - k else k) ndigits
  | _ => x
  end.

End Float64.

(** ** Rounding, as the operations of [SpecFloat] carry it out

    The two views [SpecFloat] takes of a quotient [n / d] that is about
    to be rounded, used to state what [SFdiv] and [SFmul] return. *)

(** Where [n / d] lies between the integer below it and the next one. *)
Definition loc_of (n d : Z) : location :=
  if n mod d =? 0 then loc_Exact else loc_Inexact (2 * (n mod d) ?= d).

(** The integer part of [n / d] with the round and sticky bits of the
    rest. *)
Definition rec_of (n d : Z) : shr_record :=
  Build_shr_record (n / d) (d <=? 2 * (n mod d))
    (negb ((n mod d =? 0) || (2 * (n mod d) =? d))).

(** ** Responses *)

Record event_view : Type := mk_view {
  v_id : Z;
  v_event_type : string;
  v_dose_number : option Z;
  v_timestamp : Z
}.

Inductive py_number : Type :=
  | PyInt (n : Z)
  | PyFloat (x : spec_float).

Record day_counts : Type := mk_counts { taken : Z; missed : Z }.

Record statistics : Type := mk_statistics {
  total_doses : Z;
  doses_taken : Z;
  doses_missed : Z;
  adherence_percentage : py_number;
  current_streak : Z;
  best_streak : Z
}.

Inductive body : Type :=
  | Message (status message : string)
  | Failure (e : py_exn)
  | Events (count : nat) (events : list event_view)
  | Statistics (period_days : Z) (stats : statistics)
               (daily_breakdown : gmap Z day_counts)
  | ServerErrorPage (e : py_exn).

Record response : Type := mk_response {
  status_code : Z;
  payload : body
}.

(** An exception that leaves a view function is turned by Flask into its
    500 page. *)
Definition unhandled (e : py_exn) : response :=
  mk_response 500 (ServerErrorPage e).

(** [jsonify({"status": "error", "message": str(e)}), 500] *)
Definition error_500 (e : py_exn) : response :=
  mk_response 500 (Failure e).

(** ** The database *)

Module Pg.

(** [get_db_connection()] followed by the statements of a handler: the
    first failure is raised as the driver's exception. *)
Definition get_db_connection (srv : server) : py_exn + unit :=
  match db_fault srv with
  | Some msg => inl (DatabaseError msg)
  | None => inr tt
  end.

(** Modelled from the spec: the schema of [dose_log] is not in the
    repository.  [event_type] is a text column and [dose_number] an
    optional integer column; a parameter of another kind makes the
    INSERT fail. *)
Definition adapt_event_type (x : json) : option string :=
  match x with
  | JStr s => Some s
  | _ => None
  end.

Definition adapt_dose_number (x : json) : option (option Z) :=
  match x with
  | JNull => Some None
  | JNum n => Some (Some n)
  | _ => None
  end.

(** Modelled from the spec: [id] and [timestamp], which the statement
    [INSERT INTO dose_log (event_type, dose_number) VALUES (%s, %s)] does
    not give, are assigned by the server: the next value of the sequence
    and the time of the insertion. *)
Definition insert (srv : server) (et dn : json) (tbl : dose_log)
  : py_exn + dose_log :=
  match adapt_event_type et, adapt_dose_number dn with
  | Some s, Some n =>
      inr (mk_log (rows tbl ++ [mk_event (next_id tbl) s n (now srv)])
                  (next_id tbl + 1))
  | _, _ => inl (DatabaseError "invalid input for column")
  end.

(** *** Dates and timestamps *)

(** The text the handlers send where the engine expects a timestamp is
    read by the engine.  Of its input syntax the forms [YYYY-MM-DD] and
    [YYYY-MM-DD HH:MM:SS] are modelled; other text is refused, which the
    driver raises as an exception. *)
Definition date_in (s : string) : option Z :=
  if (String.length s =? 10)%nat then
    y ← Text.number (substring 0 4 s);
    m ← Text.number (substring 5 2 s);
    d ← Text.number (substring 8 2 s);
    if String.eqb (substring 4 1 s) "-" && String.eqb (substring 7 1 s) "-"
       && (1 <=? y) && (1 <=? m) && (m <=? 12)
       && (1 <=? d) && (d <=? Calendar.days_in_month y m)
    then Some (Calendar.days_from_civil y m d)
    else None
  else None.

(** [" HH:MM:SS"], as microseconds into the day. *)
Definition time_in (s : string) : option Z :=
  if (String.length s =? 9)%nat then
    h ← Text.number (substring 1 2 s);
    m ← Text.number (substring 4 2 s);
    sec ← Text.number (substring 7 2 s);
    if String.eqb (substring 0 1 s) " " && String.eqb (substring 3 1 s) ":"
       && String.eqb (substring 6 1 s) ":"
       && (h <=? 23) && (m <=? 59) && (sec <=? 59)
    then Some (((h * 60 + m) * 60 + sec) * Calendar.usec_per_second)
    else None
  else None.

Definition timestamp_in (s : string) : option Z :=
  if (String.length s =? 10)%nat then Calendar.midnight <$> date_in s
  else if (String.length s =? 19)%nat then
    d ← date_in (substring 0 10 s);
    t ← time_in (substring 10 9 s);
    Some (Calendar.midnight d + t)
  else None.

(** [DATE(timestamp)]: the day a timestamp falls on. *)
Definition DATE (ts : Z) : Z := ts / Calendar.usec_per_day.

(** The characters the engine skips around a number. *)
Definition is_space (c : ascii) : bool :=
  let n := nat_of_ascii c in
  (Nat.eqb n 32) || (Nat.leb 9 n && Nat.leb n 13).

(** Text where the engine expects a [bigint]. *)
Definition bigint_in (s : string) : option Z :=
  n ← Text.signed_number (Text.strip is_space s);
  if (- 2 ^ 63 <=? n) && (n <? 2 ^ 63) then Some n else None.

(** *** SELECT ... FROM dose_log WHERE 1=1 ... ORDER BY timestamp DESC
    LIMIT ... *)

(** The conjuncts [get_events] appends to [WHERE 1=1], each with its
    parameter. *)
Inductive condition : Type :=
  | TimestampGe (param : string)
  | TimestampLe (param : string).

(** The parameter of [LIMIT]: the integer default, or the text of the
    query string. *)
Inductive limit_param : Type :=
  | LimitInt (n : Z)
  | LimitText (s : string).

Definition bad_timestamp : py_exn :=
  DatabaseError "invalid input syntax for type timestamp".

Definition eval_condition (c : condition) : py_exn + (dose_event -> bool) :=
  match c with
  | TimestampGe p =>
      match timestamp_in p with
      | Some t => inr (fun r => t <=? timestamp r)
      | None => inl bad_timestamp
      end
  | TimestampLe p =>
      match timestamp_in p with
      | Some t => inr (fun r => timestamp r <=? t)
      | None => inl bad_timestamp
      end
  end.

Fixpoint eval_where (cs : list condition) : py_exn + (dose_event -> bool) :=
  match cs with
  | [] => inr (fun _ => true)
  | c :: cs' =>
      let? f := eval_condition c in
      let? g := eval_where cs' in
      inr (fun r => f r && g r)
  end.

Definition row_count (n : Z) : py_exn + nat :=
  if n <? 0 then inl (DatabaseError "LIMIT must not be negative")
  else inr (Z.to_nat n).

Definition eval_limit (p : limit_param) : py_exn + nat :=
  match p with
  | LimitInt n => row_count n
  | LimitText s =>
      match bigint_in s with
      | Some n => row_count n
      | None => inl (DatabaseError "invalid input syntax for type bigint")
      end
  end.

(** [ORDER BY key DESC], by insertion.  Among rows with equal keys the
    engine is free to choose an order, and may choose differently from one
    query to the next; the order this function gives them is one of the
    orders allowed.  A property that compares the order of two answers
    is stated for rows whose keys are distinct. *)
Fixpoint insert_desc {A : Type} (key : A -> Z) (x : A) (l : list A)
  : list A :=
  match l with
  | [] => [x]
  | y :: l' => if key y <? key x then x :: l else y :: insert_desc key x l'
  end.

Definition order_by_desc {A : Type} (key : A -> Z) (l : list A) : list A :=
  fold_right (insert_desc key) [] l.

Definition select_events (cs : list condition) (lim : limit_param)
    (tbl : dose_log) : py_exn + list dose_event :=
  let? keep := eval_where cs in
  let? n := eval_limit lim in
  inr (firstn n (order_by_desc timestamp (List.filter keep (rows tbl)))).

(** *** The three aggregate queries of /api/statistics *)

(** [WHERE timestamp >= %s AND timestamp <= %s] *)
Definition in_window (lo hi : Z) (r : dose_event) : bool :=
  (lo <=? timestamp r) && (timestamp r <=? hi).

Definition window (lo hi : Z) (tbl : dose_log) : list dose_event :=
  List.filter (in_window lo hi) (rows tbl).

(** [event_type = 'TAKEN'] and the like. *)
Definition has_type (t : string) (r : dose_event) : bool :=
  String.eqb (event_type r) t.

Definition on_date (d : Z) (r : dose_event) : bool :=
  DATE (timestamp r) =? d.

(** [COUNT( * )] *)
Definition count_star {A : Type} (rs : list A) : Z := Z.of_nat (length rs).

(** [SUM(CASE WHEN c THEN 1 ELSE 0 END)] over rows that exist. *)
Definition sum_case (c : dose_event -> bool) (rs : list dose_event) : Z :=
  fold_left (fun acc r => acc + (if c r then 1 else 0)) rs 0.

(** The same aggregate over a set of rows that may be empty: SUM of no
    rows is NULL. *)
Definition sum_case_null (c : dose_event -> bool) (rs : list dose_event)
  : option Z :=
  match rs with
  | [] => None
  | _ => Some (sum_case c rs)
  end.

(** [SELECT COUNT( * ), SUM(...TAKEN...), SUM(...MISSED...)] *)
Definition select_totals (lo hi : Z) (tbl : dose_log)
  : Z * option Z * option Z :=
  let rs := window lo hi tbl in
  (count_star rs,
   sum_case_null (has_type "TAKEN") rs,
   sum_case_null (has_type "MISSED") rs).

(** The values of a grouping key, each once, largest first. *)
Fixpoint insert_distinct_desc (d : Z) (l : list Z) : list Z :=
  match l with
  | [] => [d]
  | x :: l' =>
      if x <? d then d :: l
      else if x =? d then l
      else x :: insert_distinct_desc d l'
  end.

Definition group_dates (rs : list dose_event) : list Z :=
  fold_right insert_distinct_desc [] (map (fun r => DATE (timestamp r)) rs).

(** [SELECT DATE(timestamp), COUNT( * ), SUM(...TAKEN...) ... GROUP BY
    DATE(timestamp) ORDER BY date DESC]; a group has at least one row,
    so its SUM is not NULL. *)
Definition select_daily (lo hi : Z) (tbl : dose_log) : list (Z * Z * Z) :=
  let rs := window lo hi tbl in
  map (fun d =>
         let g := List.filter (on_date d) rs in
         (d, count_star g, sum_case (has_type "TAKEN") g))
      (group_dates rs).

(** [SELECT DATE(timestamp), event_type, COUNT( * ) ... GROUP BY
    DATE(timestamp), event_type ORDER BY date DESC] *)
Definition select_daily_events (lo hi : Z) (tbl : dose_log)
  : list (Z * string * Z) :=
  let rs := window lo hi tbl in
  flat_map
    (fun d =>
       let g := List.filter (on_date d) rs in
       map (fun t => (d, t, count_star (List.filter (has_type t) g)))
           (nodup String.string_dec (map event_type g)))
    (group_dates rs).

End Pg.

(** ** POST /log_dose *)

(** [log_dose] of src/app.py and src/med_disp/app.py (the two are the same
    function).  [data] is what [request.get_json()] returned: [None] when
    the request carries no JSON value. *)
Definition log_dose (srv : server) (data : option json) (tbl : dose_log)
  : response * dose_log :=
  let invalid := (mk_response 400 (Message "error" "Invalid data"), tbl) in
  match data with
  | None => invalid
  | Some d =>
      if negb (Py.truthy d) then invalid
      else
        match Py.contains "event_type" d with
        | inl e => (unhandled e, tbl)
        | inr false => invalid
        | inr true =>
            match Py.get "event_type" d, Py.get "dose_number" d with
            | inl e, _ | _, inl e => (unhandled e, tbl)
            | inr event_type, inr dose_number =>
                match Pg.get_db_connection srv with
                | inl e => (error_500 e, tbl)
                | inr _ =>
                    match Pg.insert srv event_type dose_number tbl with
                    | inl e => (error_500 e, tbl)
                    | inr tbl' =>
                        (mk_response 201 (Message "success" "Log received"),
                         tbl')
                    end
                end
            end
        end
  end.

(** ** GET /api/events *)

(** [request.args] of /api/events: each parameter as sent, or absent. *)
Record events_args : Type := mk_events_args {
  start_date : option string;
  end_date : option string;
  limit : option string
}.

(** [if s:] on a query parameter: given and not empty. *)
Definition given (arg : option string) : option string :=
  match arg with
  | Some s => if String.eqb s "" then None else Some s
  | None => None
  end.

(** The dict built for a row; the timestamp stands for its
    [isoformat()]. *)
Definition view (r : dose_event) : event_view :=
  mk_view (id r) (event_type r) (dose_number r) (timestamp r).

(** The conditions and parameters [get_events] collects in [query] and
    [params]. *)
Definition events_conditions (args : events_args) : list Pg.condition :=
  let query := [] in
  let query :=
    match given (start_date args) with
    | Some s => query ++ [Pg.TimestampGe s]
    | None => query
    end in
  let query :=
    match given (end_date args) with
    | Some s => query ++ [Pg.TimestampLe (s ++ " 23:59:59")]
    | None => query
    end in
  query.

Definition events_limit (args : events_args) : Pg.limit_param :=
  match limit args with
  | Some s => Pg.LimitText s
  | None => Pg.LimitInt 100
  end.

Definition get_events (srv : server) (args : events_args) (tbl : dose_log)
  : response :=
  let result :=
    let? _ := Pg.get_db_connection srv in
    let? rows := Pg.select_events (events_conditions args)
                                  (events_limit args) tbl in
    inr (map view rows) in
  match result with
  | inr events => mk_response 200 (Events (length events) events)
  | inl e => error_500 e
  end.

(** ** GET /api/statistics *)

(** [request.args] of /api/statistics. *)
Record statistics_args : Type := mk_statistics_args {
  days : option string
}.

(** [int(request.args.get('days', 30))] *)
Definition days_of (args : statistics_args) : py_exn + Z :=
  match days args with
  | Some s => Py.int_of_str s
  | None => inr 30
  end.

(** [counts[i] or 0] *)
Definition or_zero (x : option Z) : Z :=
  match x with
  | Some n => if n =? 0 then 0 else n
  | None => 0
  end.

(** The body of the loop over [daily_data]; the state is
    [(best_streak, temp_streak)]. *)
Definition streak_step (st : Z * Z) (day_data : Z * Z * Z) : Z * Z :=
  let '(best_streak, temp_streak) := st in
  let '(_, total_doses, taken_doses) := day_data in
  if 3 <=? taken_doses then
    let temp_streak := temp_streak + 1 in
    if best_streak <? temp_streak then (temp_streak, temp_streak)
    else (best_streak, temp_streak)
  else (best_streak, 0).

Definition streak_scan (daily_data : list (Z * Z * Z)) : Z * Z :=
  fold_left streak_step daily_data (0, 0).

(** The body of the loop over [daily_events].  The keys of
    [events_by_day] are the dates themselves: [isoformat()] names each
    date by one text. *)
Definition breakdown_step (events_by_day : gmap Z day_counts)
    (row : Z * string * Z) : gmap Z day_counts :=
  let '(date, event_type, count) := row in
  let events_by_day :=
    match events_by_day !! date with
    | None => <[date := mk_counts 0 0]> events_by_day
    | Some _ => events_by_day
    end in
  if String.eqb event_type "TAKEN" then
    alter (fun c => mk_counts count (missed c)) date events_by_day
  else if String.eqb event_type "MISSED" then
    alter (fun c => mk_counts (taken c) count) date events_by_day
  else events_by_day.

Definition breakdown (daily_events : list (Z * string * Z))
  : gmap Z day_counts :=
  fold_left breakdown_step daily_events ∅.

(** [(taken / total * 100) if total > 0 else 0] *)
Definition adherence (taken total : Z) : py_exn + py_number :=
  if 0 <? total then
    let? q := Float64.int_truediv taken total in
    inr (PyFloat (Float64.mul_int q 100))
  else inr (PyInt 0).

(** [round(x, 2)] on either kind of number. *)
Definition round2 (x : py_number) : py_number :=
  match x with
  | PyInt n => PyInt n
  | PyFloat f => PyFloat (Float64.round f 2)
  end.

Definition get_statistics (srv : server) (args : statistics_args)
    (tbl : dose_log) : response :=
  let result :=
    let? days := days_of args in
    let? _ := Pg.get_db_connection srv in
    let end_date := now srv in
    let? start_date := Py.minus_days end_date days in
    let '(total, taken, missed) := Pg.select_totals start_date end_date tbl in
    let total := or_zero (Some total) in
    let taken := or_zero taken in
    let missed := or_zero missed in
    let? adherence_percentage := adherence taken total in
    let daily_data := Pg.select_daily start_date end_date tbl in
    let '(best_streak, temp_streak) := streak_scan daily_data in
    let current_streak := temp_streak in
    let daily_events := Pg.select_daily_events start_date end_date tbl in
    let events_by_day := breakdown daily_events in
    inr (Statistics days
           (mk_statistics total taken missed (round2 adherence_percentage)
                          current_streak best_streak)
           events_by_day) in
  match result with
  | inr b => mk_response 200 b
  | inl e => error_500 e
  end.

(** ** Notions the properties are stated with *)


(** How a date parameter of /api/events reads: [Some None] when it is not
    given, [Some (Some d)] when it names the calendar date [d]. *)
Definition date_param (arg : option string) : option (option Z) :=
  match given arg with
  | None => Some None
  | Some s => Some <$> Pg.date_in s
  end.

(** [D 23:59:59] as a timestamp. *)
Definition end_of_day (d : Z) : Z :=
  Calendar.midnight d + 86399 * Calendar.usec_per_second.

(** A timestamp lies within the bounds that are given: from [D1 00:00:00]
    and up to [D2 23:59:59]. *)
Definition within (lo hi : option Z) (ts : Z) : bool :=
  match lo with Some d => Calendar.midnight d <=? ts | None => true end
  && match hi with Some d => ts <=? end_of_day d | None => true end.

(** The rows of [w] dated [d], and those among them of type [t]. *)
Definition events_on (d : Z) (w : list dose_event) : Z :=
  Pg.count_star (List.filter (Pg.on_date d) w).

Definition count_on (t : string) (d : Z) (w : list dose_event) : Z :=
  Pg.count_star
    (List.filter (fun r => Pg.on_date d r && Pg.has_type t r) w).

(** The rows of [w] of type [t]. *)
Definition count_of (t : string) (w : list dose_event) : Z :=
  Pg.count_star (List.filter (Pg.has_type t) w).

(** A day is complete when at least 3 TAKEN events fall on it. *)
Definition complete (w : list dose_event) (d : Z) : bool :=
  3 <=? count_on "TAKEN" d w.

(** The row the daily query returns for the date [d] over the rows [w]:
    the date, its number of events and its number of TAKEN events. *)
Definition daily_row (w : list dose_event) (d : Z) : Z * Z * Z :=
  (d, events_on d w, count_on "TAKEN" d w).

(** The values a counter takes while it goes through the days [ds]: one
    more on a complete day, back to 0 on any other. *)
Fixpoint counter_trace (w : list dose_event) (c : Z) (ds : list Z) : list Z :=
  match ds with
  | [] => []
  | d :: ds' =>
      let c' := if complete w d then c + 1 else 0 in
      c' :: counter_trace w c' ds'
  end.

Definition max_reached (cs : list Z) : Z := fold_right Z.max 0 cs.

(** The length of the unbroken run of complete days at the head of
    [ds]. *)
Fixpoint run_length (w : list dose_event) (ds : list Z) : Z :=
  match ds with
  | [] => 0
  | d :: ds' => if complete w d then 1 + run_length w ds' else 0
  end.

(** [taken / total * 100] rounded to 2 decimal places, in the arithmetic
    of Python's floats. *)
Definition percentage (taken total : Z) : spec_float :=
  Float64.round
    (Float64.mul_int
       (SFdiv Float64.prec Float64.emax (Float64.exact taken)
              (Float64.exact total)) 100) 2.

(** [x] is [+0.0] for [k = 0] and, for [0 < k], a positive normal double
    within half a unit in its last place of [k / 100]. *)
Definition double_of_hundredths (k : Z) (x : spec_float) : bool :=
  match x with
  | S754_zero s => negb s && (k =? 0)
  | S754_finite false m e =>
      (0 <? k) && (2 ^ 52 <=? Zpos m) && (Zpos m <? 2 ^ 53) && (e <? 0)
      && (2 * Z.abs (Zpos m * 100 - k * 2 ^ (- e)) <=? 100)
  | _ => false
  end.

(** [taken / total * 100] rounded to 2 decimal places on the exact
    quotient, in hundredths, a tie going up. *)
Definition hundredths_half_up (taken total : Z) : Z :=
  (2 * (10000 * taken) + total) / (2 * total).

(** What a row [(date, t, n)] of the breakdown query does to the counts
    kept for its date. *)
Definition apply_row (t : string) (n : Z) (c : day_counts) : day_counts :=
  if String.eqb t "TAKEN" then mk_counts n (missed c)
  else if String.eqb t "MISSED" then mk_counts (taken c) n
  else c.

(** The parts of a /api/statistics answer. *)
Definition statistics_of (r : response) : option statistics :=
  match payload r with
  | Statistics _ st _ => Some st
  | _ => None
  end.

Definition daily_breakdown_of (r : response) : option (gmap Z day_counts) :=
  match payload r with
  | Statistics _ _ bd => Some bd
  | _ => None
  end.

(** ** Sample data *)

Module Sample.

(** 2024-03-10 12:00:00, the database reachable. *)
Definition noon : Z := Calendar.midnight 19792 + 12 * 3600 * 1000000.
Definition srv : server := mk_server None noon.

Definition empty : dose_log := mk_log [] 1.

(** An event [h] hours into day [d]. *)
Definition at_ (i : Z) (t : string) (d h : Z) : dose_event :=
  mk_event i t (Some 1) (Calendar.midnight d + h * 3600 * 1000000).

Definition today : Z := 19792.

(** 3 TAKEN on each of the two days before [today], 1 TAKEN and 2 MISSED
    today. *)
Definition two_full_days : dose_log :=
  mk_log [ at_ 1 "TAKEN" (today - 2) 8; at_ 2 "TAKEN" (today - 2) 14;
           at_ 3 "TAKEN" (today - 2) 20;
           at_ 4 "TAKEN" (today - 1) 8; at_ 5 "TAKEN" (today - 1) 14;
           at_ 6 "TAKEN" (today - 1) 20;
           at_ 7 "TAKEN" today 8; at_ 8 "MISSED" today 9;
           at_ 9 "MISSED" today 10 ] 10.

(** 3 TAKEN on each of the three days before [today], 1 TAKEN today. *)
Definition three_full_days : dose_log :=
  mk_log [ at_ 1 "TAKEN" (today - 3) 8; at_ 2 "TAKEN" (today - 3) 14;
           at_ 3 "TAKEN" (today - 3) 20;
           at_ 4 "TAKEN" (today - 2) 8; at_ 5 "TAKEN" (today - 2) 14;
           at_ 6 "TAKEN" (today - 2) 20;
           at_ 7 "TAKEN" (today - 1) 8; at_ 8 "TAKEN" (today - 1) 14;
           at_ 9 "TAKEN" (today - 1) 20;
           at_ 10 "TAKEN" today 8 ] 11.

(** 160 events of [today], the first 23 of them TAKEN. *)
Definition tie : dose_log :=
  mk_log (map (fun i => mk_event (Z.of_nat i)
                          (if Nat.leb i 23 then "TAKEN" else "MISSED")
                          (Some 1) (Calendar.midnight today + Z.of_nat i))
              (seq 1 160)) 161.

(** The rows of a table that the 30 days up to [noon] cover. *)
Definition month_start : Z := noon - 30 * Calendar.usec_per_day.
Definition logged (tbl : dose_log) : list dose_event :=
  Pg.window month_start noon tbl.

(** /api/events?start_date=2024-03-08&end_date=2024-03-09 *)
Definition two_days : events_args :=
  mk_events_args (Some "2024-03-08") (Some "2024-03-09") None.

(** /api/events?limit=2 *)
Definition two_rows : events_args :=
  mk_events_args None None (Some "2").

(** /api/statistics and /api/statistics?days=30 *)
Definition default_days : statistics_args := mk_statistics_args None.
Definition thirty_days : statistics_args := mk_statistics_args (Some "30").

End Sample.

(** ** Notions for the further properties *)

(** The row [log_dose] stores for an event type and a dose number. *)
Definition logged_event (srv : server) (tbl : dose_log) (s : string)
    (dn : option Z) : dose_event :=
  mk_event (next_id tbl) s dn (now srv).

(** The sum of [f] over the dates [ds]. *)
Definition sum_over (f : Z -> Z) (ds : list Z) : Z :=
  fold_right (fun d acc => f d + acc) 0 ds.

(** The sum of [f] over the entries of a daily breakdown. *)
Definition breakdown_sum (f : day_counts -> Z) (bd : gmap Z day_counts) : Z :=
  map_fold (fun _ c acc => f c + acc) 0 bd.

(** Text on which [Py.int_of_str] is [int()]: ASCII characters only, and
    no more than 4300 of them. *)
Fixpoint all_ascii (s : string) : bool :=
  match s with
  | EmptyString => true
  | String c rest => Nat.ltb (nat_of_ascii c) 128 && all_ascii rest
  end.

Definition plain (s : string) : bool :=
  all_ascii s && Nat.leb (String.length s) 4300.

Definition plain_days (args : statistics_args) : bool :=
  match days args with
  | Some s => plain s
  | None => true
  end.

(** The events of an /api/events answer. *)
Definition events_of (r : response) : option (list event_view) :=
  match payload r with
  | Events _ evs => Some evs
  | _ => None
  end.

(** ** Further sample data *)

Module Requests.

(** The database out of reach. *)
Definition down : server := mk_server (Some "connection refused") Sample.noon.

(** [{"event_type": "TAKEN", "dose_number": 2}] *)
Definition taken_2 : gmap string json :=
  <["dose_number" := JNum 2]> {[ "event_type" := JStr "TAKEN" ]}.

(** /api/events without parameters. *)
Definition all_events : events_args := mk_events_args None None None.

(** /api/events?start_date=2024-03-09&end_date=2024-03-08 *)
Definition reversed : events_args :=
  mk_events_args (Some "2024-03-09") (Some "2024-03-08") None.

(** An event stamped exactly 30 days before [Sample.noon], one a
    microsecond older, and one a microsecond after [Sample.noon]. *)
Definition on_the_edge : dose_event :=
  mk_event 0 "TAKEN" (Some 1) (Sample.noon - 30 * 86400000000).
Definition just_too_old : dose_event :=
  mk_event 0 "TAKEN" (Some 1) (Sample.noon - 30 * 86400000000 - 1).
Definition just_too_new : dose_event :=
  mk_event 0 "TAKEN" (Some 1) (Sample.noon + 1).

(** One hour after [Sample.noon], the database reachable. *)
Definition later : server := mk_server None (Sample.noon + 3600 * 1000000).

(** /api/statistics?days=-7 and /api/statistics?days=week *)
Definition next_week : statistics_args := mk_statistics_args (Some "-7").
Definition not_a_number : statistics_args := mk_statistics_args (Some "week").

End Requests.

(** * Properties *)

(** ** General facts about the embedding's helpers *)

Lemma firstn_In {A : Type} (n : nat) (l : list A) (a : A) :
  In a (firstn n l) -> In a l.
Proof.
  revert n. induction l as [|z l IH]; intros [|n]; simpl; try tauto.
  intros [->|H]; [now left | right; eauto].
Qed.

Section Ordering.
Context {A : Type} (key : A -> Z).

Lemma insert_desc_In (x y : A) (l : list A) :
  In y (Pg.insert_desc key x l) <-> y = x \/ In y l.
Proof.
  induction l as [|z l IH]; simpl.
  - intuition.
  - destruct (key z <? key x); simpl; rewrite ?IH; intuition.
Qed.


Lemma order_by_desc_In (y : A) (l : list A) :
  In y (Pg.order_by_desc key l) <-> In y l.
Proof.
  unfold Pg.order_by_desc. induction l as [|x l IH]; simpl; [reflexivity|].
  rewrite insert_desc_In, IH. intuition.
Qed.



End Ordering.

(** ** POST /log_dose *)

Lemma truthy_obj_with_key (k : string) (m : gmap string json) :
  is_Some (m !! k) -> Py.truthy (JObj m) = true.
Proof.
  intros [v Hv]. simpl.
  rewrite bool_decide_eq_false_2; [reflexivity|].
  intros ->. rewrite lookup_empty in Hv. discriminate.
Qed.









(** ** GET /api/events *)

Lemma length_append (s1 s2 : string) :
  String.length (s1 ++ s2) = (String.length s1 + String.length s2)%nat.
Proof. induction s1 as [|c s1 IH]; simpl; [reflexivity | now rewrite IH]. Qed.

Lemma substring_append_l (s1 s2 : string) :
  substring 0 (String.length s1) (s1 ++ s2) = s1.
Proof.
  induction s1 as [|c s1 IH]; simpl.
  - now destruct s2.
  - now rewrite IH.
Qed.

Lemma substring_append_r (s1 s2 : string) (n : nat) :
  substring (String.length s1) n (s1 ++ s2) = substring 0 n s2.
Proof. induction s1 as [|c s1 IH]; simpl; [reflexivity | exact IH]. Qed.

Lemma date_in_length (s : string) (d : Z) :
  Pg.date_in s = Some d -> String.length s = 10%nat.
Proof.
  unfold Pg.date_in. destruct (String.length s =? 10)%nat eqn:E.
  - intros _. now apply Nat.eqb_eq.
  - discriminate.
Qed.

(** The parameter [end_date + ' 23:59:59'] reads as the last second of the
    day. *)
Lemma timestamp_in_end_of_day (s : string) (d : Z) :
  Pg.date_in s = Some d ->
  Pg.timestamp_in (s ++ " 23:59:59") = Some (end_of_day d).
Proof.
  intros Hd. pose proof (date_in_length _ _ Hd) as Hlen.
  unfold Pg.timestamp_in. rewrite length_append, Hlen. simpl Nat.eqb.
  rewrite <- Hlen at 1. rewrite substring_append_l.
  rewrite <- Hlen. rewrite substring_append_r. rewrite Hd. reflexivity.
Qed.

Lemma timestamp_in_midnight (s : string) (d : Z) :
  Pg.date_in s = Some d ->
  Pg.timestamp_in s = Some (Calendar.midnight d).
Proof.
  intros Hd. unfold Pg.timestamp_in.
  rewrite (date_in_length _ _ Hd). simpl Nat.eqb. now rewrite Hd.
Qed.

Lemma date_param_inv (arg : option string) (b : option Z) :
  date_param arg = Some b ->
  match b with
  | None => given arg = None
  | Some d => exists s, given arg = Some s /\ Pg.date_in s = Some d
  end.
Proof.
  unfold date_param. destruct (given arg) as [s|].
  - destruct (Pg.date_in s) as [d|] eqn:E; simpl; [|discriminate].
    intros [= <-]. eauto.
  - now intros [= <-].
Qed.

(** The WHERE clause [get_events] builds keeps exactly the rows within the
    bounds that are given. *)
Lemma eval_where_events (args : events_args) (lo hi : option Z) :
  date_param (start_date args) = Some lo ->
  date_param (end_date args) = Some hi ->
  exists keep,
    Pg.eval_where (events_conditions args) = inr keep
    /\ forall r, keep r = within lo hi (timestamp r).
Proof.
  intros Hlo Hhi. apply date_param_inv in Hlo, Hhi.
  unfold events_conditions, within.
  destruct lo as [d1|], hi as [d2|].
  - destruct Hlo as (s1 & -> & H1), Hhi as (s2 & -> & H2). simpl.
    rewrite (timestamp_in_midnight _ _ H1), (timestamp_in_end_of_day _ _ H2).
    simpl. eexists; split; [reflexivity|]. intros r.
    cbv beta. now destruct (_ <=? timestamp r), (timestamp r <=? _).
  - destruct Hlo as (s1 & -> & H1). rewrite Hhi. simpl.
    rewrite (timestamp_in_midnight _ _ H1).
    simpl. eexists; split; [reflexivity|]. intros r.
    cbv beta. now destruct (_ <=? timestamp r).
  - destruct Hhi as (s2 & -> & H2). rewrite Hlo. simpl.
    rewrite (timestamp_in_end_of_day _ _ H2).
    simpl. eexists; split; [reflexivity|]. intros r.
    cbv beta. now destruct (timestamp r <=? _).
  - rewrite Hlo, Hhi. simpl. eexists; split; [reflexivity|]. reflexivity.
Qed.

(** What [get_events] answers once its WHERE clause and its LIMIT are
    accepted by the engine. *)
Lemma get_events_ok (srv : server) (args : events_args) (tbl : dose_log)
    (keep : dose_event -> bool) (n : nat) :
  db_fault srv = None ->
  Pg.eval_where (events_conditions args) = inr keep ->
  Pg.eval_limit (events_limit args) = inr n ->
  let evs := map view (firstn n (Pg.order_by_desc timestamp
                                   (List.filter keep (rows tbl)))) in
  get_events srv args tbl = mk_response 200 (Events (length evs) evs).
Proof.
  intros Hdb Hw Hl. unfold get_events, Pg.get_db_connection, Pg.select_events.
  rewrite Hdb, Hw, Hl. reflexivity.
Qed.


(** C6: with [start_date] and [end_date] read as calendar dates D1 and D2
    (each optional), the rows returned are stored rows whose timestamp is
    at or after D1 00:00:00 and at or before D2 23:59:59, a bound counting
    only when its parameter is given; no other row is held back, short of
    the LIMIT. *)
Theorem get_events_date_range (srv : server) (args : events_args)
    (tbl : dose_log) (lo hi : option Z) (n : nat) :
  db_fault srv = None ->
  date_param (start_date args) = Some lo ->
  date_param (end_date args) = Some hi ->
  Pg.eval_limit (events_limit args) = inr n ->
  exists evs,
    get_events srv args tbl = mk_response 200 (Events (length evs) evs)
    /\ (forall v, In v evs ->
          within lo hi (v_timestamp v) = true
          /\ exists r, In r (rows tbl) /\ v = view r)
    /\ (forall r, In r (rows tbl) -> within lo hi (timestamp r) = true ->
          In (view r) evs \/ length evs = n).
Proof.
  intros Hdb Hlo Hhi Hlim.
  destruct (eval_where_events args lo hi Hlo Hhi) as (keep & Hw & Hkeep).
  eexists. split; [exact (get_events_ok srv args tbl keep n Hdb Hw Hlim)|].
  split.
  - intros v Hv. apply in_map_iff in Hv as (r & <- & Hr).
    apply firstn_In in Hr. apply order_by_desc_In in Hr.
    apply List.filter_In in Hr as [Hr Hk].
    rewrite Hkeep in Hk. split; [exact Hk | eauto].
  - intros r Hr Hin.
    set (l := Pg.order_by_desc timestamp (List.filter keep (rows tbl))).
    rewrite length_map.
    destruct (Nat.le_gt_cases (length l) n) as [Hle|Hgt].
    + left. rewrite firstn_all2 by exact Hle.
      apply in_map. apply order_by_desc_In. apply List.filter_In.
      split; [exact Hr | now rewrite Hkeep].
    + right. apply firstn_length_le. lia.
Qed.

Lemma get_events_date_range_witness :
  exists evs,
    get_events Sample.srv Sample.two_days Sample.two_full_days
      = mk_response 200 (Events (length evs) evs)
    /\ (forall v, In v evs ->
          within (Some 19790) (Some 19791) (v_timestamp v) = true
          /\ exists r, In r (rows Sample.two_full_days) /\ v = view r)
    /\ (forall r, In r (rows Sample.two_full_days) ->
          within (Some 19790) (Some 19791) (timestamp r) = true ->
          In (view r) evs \/ length evs = 100%nat).
Proof.
  apply (get_events_date_range Sample.srv Sample.two_days
           Sample.two_full_days (Some 19790) (Some 19791) 100);
    reflexivity.
Defined.



(** ** GET /api/statistics: the aggregates *)

Lemma sum_case_count (c : dose_event -> bool) (rs : list dose_event) :
  Pg.sum_case c rs = Pg.count_star (List.filter c rs).
Proof.
  unfold Pg.sum_case, Pg.count_star.
  assert (H : forall acc,
             fold_left (fun a r => a + (if c r then 1 else 0)) rs acc
             = acc + Z.of_nat (length (List.filter c rs))).
  { induction rs as [|r rs IH]; intros acc; simpl; [lia|].
    rewrite IH. destruct (c r); simpl length; lia. }
  rewrite H. lia.
Qed.

Lemma or_zero_Some (n : Z) : or_zero (Some n) = n.
Proof. unfold or_zero. destruct (n =? 0) eqn:E; [apply Z.eqb_eq in E|]; lia. Qed.

Lemma or_zero_sum_case (c : dose_event -> bool) (rs : list dose_event) :
  or_zero (Pg.sum_case_null c rs) = Pg.count_star (List.filter c rs).
Proof.
  destruct rs as [|r rs]; [reflexivity|].
  unfold Pg.sum_case_null. now rewrite or_zero_Some, sum_case_count.
Qed.

Lemma filter_filter_length {A : Type} (f g : A -> bool) (l : list A) :
  length (List.filter g (List.filter f l))
  = length (List.filter (fun x => f x && g x) l).
Proof.
  induction l as [|x l IH]; simpl; [reflexivity|].
  destruct (f x); simpl; [destruct (g x); simpl; now rewrite IH | exact IH].
Qed.

(** *** The grouping key *)

Lemma insert_distinct_desc_In (d x : Z) (l : list Z) :
  In x (Pg.insert_distinct_desc d l) <-> x = d \/ In x l.
Proof.
  induction l as [|y l IH]; simpl; [intuition|].
  destruct (y <? d) eqn:E1; simpl; [intuition|].
  destruct (y =? d) eqn:E2; simpl.
  - apply Z.eqb_eq in E2. subst. intuition.
  - rewrite IH. intuition.
Qed.

Lemma insert_distinct_desc_sorted (d : Z) (l : list Z) :
  StronglySorted Z.gt l -> StronglySorted Z.gt (Pg.insert_distinct_desc d l).
Proof.
  induction 1 as [|y l Hl IH Hy]; simpl.
  - repeat constructor.
  - destruct (y <? d) eqn:E1.
    + apply Z.ltb_lt in E1. constructor; [now constructor|].
      constructor; [lia|]. eapply List.Forall_impl; [|exact Hy].
      intros a Ha. simpl in Ha. lia.
    + apply Z.ltb_ge in E1. destruct (y =? d) eqn:E2.
      * now constructor.
      * apply Z.eqb_neq in E2. constructor; [exact IH|].
        apply List.Forall_forall. intros a Ha.
        apply insert_distinct_desc_In in Ha as [->|Ha]; [lia|].
        rewrite List.Forall_forall in Hy. now apply Hy.
Qed.

Lemma group_dates_In (d : Z) (rs : list dose_event) :
  In d (Pg.group_dates rs)
  <-> exists r, In r rs /\ Pg.DATE (timestamp r) = d.
Proof.
  unfold Pg.group_dates. induction rs as [|r rs IH]; simpl.
  - split; [tauto | intros (r & [] & _)].
  - rewrite insert_distinct_desc_In, IH. split.
    + intros [->|(r' & Hr' & Hd)]; eauto.
    + intros (r' & [<-|Hr'] & Hd); [now left | right; eauto].
Qed.

Lemma group_dates_sorted (rs : list dose_event) :
  StronglySorted Z.gt (Pg.group_dates rs).
Proof.
  unfold Pg.group_dates. induction rs as [|r rs IH]; simpl.
  - constructor.
  - now apply insert_distinct_desc_sorted.
Qed.

Lemma sorted_gt_NoDup (l : list Z) : StronglySorted Z.gt l -> List.NoDup l.
Proof.
  induction 1 as [|y l Hl IH Hy]; constructor; [|exact IH].
  intros Hin. rewrite List.Forall_forall in Hy. specialize (Hy _ Hin). lia.
Qed.

(** A date is a group exactly when some row of the window falls on it. *)
Lemma group_dates_events_on (d : Z) (rs : list dose_event) :
  In d (Pg.group_dates rs) <-> 1 <= events_on d rs.
Proof.
  rewrite group_dates_In. unfold events_on, Pg.count_star. split.
  - intros (r & Hr & Hd).
    assert (Hin : In r (List.filter (Pg.on_date d) rs)).
    { apply List.filter_In. split; [exact Hr|]. now apply Z.eqb_eq. }
    destruct (List.filter (Pg.on_date d) rs); [destruct Hin | simpl; lia].
  - intros H. destruct (List.filter (Pg.on_date d) rs) as [|r l] eqn:E;
      [simpl in H; lia|].
    assert (Hin : In r (List.filter (Pg.on_date d) rs))
      by (rewrite E; now left).
    apply List.filter_In in Hin as [Hr Hd]. apply Z.eqb_eq in Hd. eauto.
Qed.

(** The rows of the second query, by date. *)
Lemma select_daily_rows (lo hi : Z) (tbl : dose_log) :
  Pg.select_daily lo hi tbl
  = map (daily_row (Pg.window lo hi tbl))
        (Pg.group_dates (Pg.window lo hi tbl)).
Proof.
  unfold Pg.select_daily. apply map_ext. intros d.
  rewrite sum_case_count.
  unfold daily_row, events_on, count_on, Pg.count_star.
  now rewrite filter_filter_length.
Qed.

(** *** The streak scan *)

Lemma last_default {A : Type} (x : A) (l : list A) (a b : A) :
  List.last (x :: l) a = List.last (x :: l) b.
Proof.
  revert x. induction l as [|y l IH]; intros x; [reflexivity|]. exact (IH y).
Qed.

Section Streaks.
Variable w : list dose_event.

Lemma streak_step_row (b c d : Z) :
  streak_step (b, c) (daily_row w d)
  = if complete w d then (Z.max b (c + 1), c + 1) else (b, 0).
Proof.
  unfold streak_step, daily_row, complete.
  destruct (3 <=? count_on "TAKEN" d w); [|reflexivity].
  destruct (b <? c + 1) eqn:E;
    [apply Z.ltb_lt in E | apply Z.ltb_ge in E]; f_equal; lia.
Qed.

Lemma max_reached_nonneg (cs : list Z) : 0 <= max_reached cs.
Proof. induction cs as [|c cs IH]; simpl; lia. Qed.

Lemma streak_scan_trace (ds : list Z) (b c : Z) :
  0 <= b ->
  fold_left streak_step (map (daily_row w) ds) (b, c)
  = (Z.max b (max_reached (counter_trace w c ds)),
     List.last (counter_trace w c ds) c).
Proof.
  revert b c. induction ds as [|d ds IH]; intros b c Hb.
  - simpl. f_equal. lia.
  - cbn [map fold_left counter_trace]. rewrite streak_step_row.
    pose proof (max_reached_nonneg (counter_trace w (c + 1) ds)).
    pose proof (max_reached_nonneg (counter_trace w 0 ds)).
    destruct (complete w d).
    + rewrite IH by lia. f_equal.
      * simpl max_reached. lia.
      * destruct (counter_trace w (c + 1) ds) eqn:E; [reflexivity|].
        change (List.last (z :: l) (c + 1) = List.last (z :: l) c).
        apply last_default.
    + rewrite IH by lia. f_equal.
      * simpl max_reached. lia.
      * destruct (counter_trace w 0 ds) eqn:E; [reflexivity|].
        change (List.last (z :: l) 0 = List.last (z :: l) c).
        apply last_default.
Qed.

Lemma streak_scan_snoc (l : list (Z * Z * Z)) (x : Z * Z * Z) :
  streak_scan (l ++ [x]) = streak_step (streak_scan l) x.
Proof. unfold streak_scan. now rewrite fold_left_app. Qed.

(** The counter ends at the length of the run of complete days that
    starts at the last date scanned. *)
Lemma streak_scan_run (ds : list Z) :
  snd (streak_scan (map (daily_row w) ds)) = run_length w (rev ds).
Proof.
  induction ds as [|d ds IH] using rev_ind; [reflexivity|].
  rewrite map_app, rev_app_distr. simpl map. simpl rev. simpl app.
  rewrite streak_scan_snoc.
  destruct (streak_scan (map (daily_row w) ds)) as [b c]. simpl in IH.
  rewrite streak_step_row. simpl run_length.
  destruct (complete w d); simpl; lia.
Qed.

(** When every day scanned is complete the counter never resets. *)
Lemma streak_scan_all_complete (ds : list Z) :
  (forall d, In d ds -> complete w d = true) ->
  streak_scan (map (daily_row w) ds)
  = (Z.of_nat (length ds), Z.of_nat (length ds)).
Proof.
  induction ds as [|d ds IH] using rev_ind; intros Hall; [reflexivity|].
  rewrite map_app. simpl map. rewrite streak_scan_snoc.
  rewrite IH by (intros d' Hd'; apply Hall, in_or_app; now left).
  rewrite streak_step_row, Hall by (apply in_or_app; right; now left).
  rewrite length_app. simpl length. f_equal; lia.
Qed.

End Streaks.

(** *** The answer of [get_statistics] *)

Lemma adherence_value (taken total : Z) :
  adherence taken total
  = inr (if 0 <? total
         then PyFloat (Float64.mul_int
                         (SFdiv Float64.prec Float64.emax
                                (Float64.exact taken) (Float64.exact total))
                         100)
         else PyInt 0).
Proof.
  unfold adherence, Float64.int_truediv.
  destruct (0 <? total) eqn:E; [|reflexivity].
  apply Z.ltb_lt in E. destruct (total =? 0) eqn:E0;
    [apply Z.eqb_eq in E0; lia | reflexivity].
Qed.

Lemma get_statistics_ok (srv : server) (args : statistics_args)
    (tbl : dose_log) (days lo : Z) :
  db_fault srv = None ->
  days_of args = inr days ->
  Py.minus_days (now srv) days = inr lo ->
  let w := Pg.window lo (now srv) tbl in
  let scan := streak_scan (map (daily_row w) (Pg.group_dates w)) in
  get_statistics srv args tbl
  = mk_response 200
      (Statistics days
         (mk_statistics
            (Pg.count_star w) (count_of "TAKEN" w) (count_of "MISSED" w)
            (if 0 <? Pg.count_star w
             then PyFloat (percentage (count_of "TAKEN" w) (Pg.count_star w))
             else PyInt 0)
            (snd scan) (fst scan))
         (breakdown (Pg.select_daily_events lo (now srv) tbl))).
Proof.
  intros Hdb Hdays Hlo w scan.
  unfold get_statistics, Pg.get_db_connection, Pg.select_totals.
  rewrite Hdb, Hdays. cbn [bind]. rewrite Hlo. cbn [bind].
  rewrite adherence_value. cbn [bind].
  rewrite select_daily_rows. fold w. fold scan.
  destruct scan as [best temp]. cbn [fst snd].
  rewrite or_zero_Some, !or_zero_sum_case. fold w.
  unfold round2, percentage, count_of.
  destruct (0 <? Pg.count_star w); reflexivity.
Qed.

(** *** The daily breakdown *)

Lemma breakdown_step_other (m : gmap Z day_counts) (row : Z * string * Z)
    (d : Z) :
  fst (fst row) <> d -> breakdown_step m row !! d = m !! d.
Proof.
  destruct row as [[d' t] n]. simpl. intros Hne.
  assert (H0 : match m !! d' with
               | None => <[d' := mk_counts 0 0]> m
               | Some _ => m
               end !! d = m !! d).
  { destruct (m !! d'); [reflexivity | now rewrite lookup_insert_ne]. }
  destruct (String.eqb t "TAKEN"); [now rewrite lookup_alter_ne|].
  destruct (String.eqb t "MISSED"); [now rewrite lookup_alter_ne|].
  exact H0.
Qed.

Lemma breakdown_step_same (m : gmap Z day_counts) (d : Z) (t : string)
    (n : Z) :
  breakdown_step m (d, t, n) !! d
  = Some (apply_row t n (default (mk_counts 0 0) (m !! d))).
Proof.
  unfold breakdown_step, apply_row.
  assert (H0 : match m !! d with
               | None => <[d := mk_counts 0 0]> m
               | Some _ => m
               end !! d = Some (default (mk_counts 0 0) (m !! d))).
  { destruct (m !! d) eqn:E; [now rewrite E | now rewrite lookup_insert_eq]. }
  destruct (String.eqb t "TAKEN"); [now rewrite lookup_alter_eq, H0|].
  destruct (String.eqb t "MISSED"); [now rewrite lookup_alter_eq, H0|].
  exact H0.
Qed.

Lemma fold_breakdown_other (rs : list (Z * string * Z))
    (m : gmap Z day_counts) (d : Z) :
  (forall row, In row rs -> fst (fst row) <> d) ->
  fold_left breakdown_step rs m !! d = m !! d.
Proof.
  revert m. induction rs as [|row rs IH]; intros m Hall; [reflexivity|].
  simpl. rewrite IH by (intros; apply Hall; now right).
  apply breakdown_step_other, Hall. now left.
Qed.

Section OneDate.
Variables (d : Z) (n : string -> Z).

(** The rows of one date, one per event type in [ts], fold into the
    counts of that date from whatever was there. *)
Lemma fold_breakdown_group (ts : list string) (m : gmap Z day_counts) :
  fold_left breakdown_step (map (fun t => (d, t, n t)) ts) m !! d
  = match ts with
    | [] => m !! d
    | _ => Some (fold_left (fun c t => apply_row t (n t) c) ts
                           (default (mk_counts 0 0) (m !! d)))
    end.
Proof.
  revert m. induction ts as [|t ts IH]; intros m; [reflexivity|].
  cbn [map fold_left]. rewrite IH, breakdown_step_same.
  destruct ts; reflexivity.
Qed.

Lemma fold_apply_row (ts : list string) (c : day_counts) :
  fold_left (fun c t => apply_row t (n t) c) ts c
  = mk_counts
      (if existsb (String.eqb "TAKEN") ts then n "TAKEN" else taken c)
      (if existsb (String.eqb "MISSED") ts then n "MISSED" else missed c).
Proof.
  revert c. induction ts as [|t ts IH]; intros c; [now destruct c|].
  cbn [fold_left existsb]. rewrite IH. unfold apply_row.
  rewrite (String.eqb_sym "TAKEN" t), (String.eqb_sym "MISSED" t).
  destruct (String.eqb t "TAKEN") eqn:E1.
  - apply String.eqb_eq in E1. subst t. simpl.
    now destruct (existsb _ ts), (existsb _ ts).
  - destruct (String.eqb t "MISSED") eqn:E2.
    + apply String.eqb_eq in E2. subst t. simpl.
      now destruct (existsb _ ts), (existsb _ ts).
    + reflexivity.
Qed.

End OneDate.

Lemma filter_nil_of_absent_type (g : list dose_event) (t : string) :
  existsb (String.eqb t) (nodup String.string_dec (map event_type g)) = false ->
  List.filter (Pg.has_type t) g = [].
Proof.
  intros Hno. destruct (List.filter (Pg.has_type t) g) as [|r l] eqn:E;
    [reflexivity|].
  assert (Hin : In r (List.filter (Pg.has_type t) g)) by (rewrite E; now left).
  apply List.filter_In in Hin as [Hr Ht]. apply String.eqb_eq in Ht.
  assert (Hex : existsb (String.eqb t)
                  (nodup String.string_dec (map event_type g)) = true).
  { apply existsb_exists. exists t. split; [|apply String.eqb_refl].
    apply nodup_In. rewrite <- Ht. now apply in_map. }
  congruence.
Qed.

Lemma flat_map_dates {B : Type} (f : Z -> list B) (key : B -> Z)
    (ds : list Z) (d : Z) :
  (forall d' b, In b (f d') -> key b = d') ->
  ~ In d ds ->
  forall b, In b (flat_map f ds) -> key b <> d.
Proof.
  intros Hkey Hd b Hb. apply in_flat_map in Hb as (d' & Hd' & Hb').
  rewrite (Hkey _ _ Hb'). intros ->. contradiction.
Qed.

(** The breakdown has an entry exactly for the dates on which a row of the
    window falls, with that date's TAKEN and MISSED counts. *)
Lemma breakdown_lookup (lo hi : Z) (tbl : dose_log) (d : Z) :
  let w := Pg.window lo hi tbl in
  breakdown (Pg.select_daily_events lo hi tbl) !! d
  = if 1 <=? events_on d w
    then Some (mk_counts (count_on "TAKEN" d w) (count_on "MISSED" d w))
    else None.
Proof.
  intros w. unfold breakdown, Pg.select_daily_events. fold w.
  set (f := fun d0 : Z =>
              map (fun t => (d0, t,
                             Pg.count_star
                               (List.filter (Pg.has_type t)
                                  (List.filter (Pg.on_date d0) w))))
                  (nodup String.string_dec
                     (map event_type (List.filter (Pg.on_date d0) w)))).
  assert (Hkey : forall d' b, In b (f d') -> fst (fst b) = d').
  { intros d' b Hb. apply in_map_iff in Hb as (t & <- & _). reflexivity. }
  pose proof (group_dates_events_on d w) as Hgrp.
  destruct (in_dec Z.eq_dec d (Pg.group_dates w)) as [Hin|Hout].
  - pose proof (proj1 Hgrp Hin) as Hev.
    destruct (1 <=? events_on d w) eqn:E; [|apply Z.leb_gt in E; lia].
    pose proof (sorted_gt_NoDup _ (group_dates_sorted w)) as Hnd.
    destruct (in_split _ _ Hin) as (l1 & l2 & Hds). rewrite Hds in Hnd |- *.
    apply NoDup_remove_2 in Hnd.
    assert (H1 : ~ In d l1) by (intros H; apply Hnd, in_or_app; now left).
    assert (H2 : ~ In d l2) by (intros H; apply Hnd, in_or_app; now right).
    rewrite flat_map_app. cbn [flat_map]. rewrite !fold_left_app.
    rewrite fold_breakdown_other
      by (apply (flat_map_dates f (fun b => fst (fst b))); assumption).
    change (f d) with
      (map (fun t => (d, t,
                      (fun t0 => Pg.count_star
                                   (List.filter (Pg.has_type t0)
                                      (List.filter (Pg.on_date d) w))) t))
           (nodup String.string_dec
              (map event_type (List.filter (Pg.on_date d) w)))).
    rewrite fold_breakdown_group.
    rewrite fold_breakdown_other
      by (apply (flat_map_dates f (fun b => fst (fst b))); assumption).
    rewrite lookup_empty. cbn [default].
    destruct (nodup String.string_dec
                (map event_type (List.filter (Pg.on_date d) w)))
      as [|t ts] eqn:Ets.
    { unfold events_on, Pg.count_star in Hev.
      destruct (List.filter (Pg.on_date d) w) as [|r g] eqn:Eg;
        [simpl in Hev; lia|].
      assert (Hr : In (event_type r) (nodup String.string_dec
                                        (map event_type (r :: g))))
        by (apply nodup_In; now left).
      rewrite Ets in Hr. destruct Hr. }
    rewrite <- Ets. rewrite fold_apply_row. cbn [taken missed].
    f_equal. unfold count_on, Pg.count_star.
    rewrite <- !filter_filter_length. f_equal.
    + destruct (existsb (String.eqb "TAKEN") _) eqn:Ex; [reflexivity|].
      now rewrite (filter_nil_of_absent_type _ _ Ex).
    + destruct (existsb (String.eqb "MISSED") _) eqn:Ex; [reflexivity|].
      now rewrite (filter_nil_of_absent_type _ _ Ex).
  - rewrite fold_breakdown_other
      by (apply (flat_map_dates f (fun b => fst (fst b))); assumption).
    rewrite lookup_empty.
    destruct (1 <=? events_on d w) eqn:E; [|reflexivity].
    apply Z.leb_le in E. apply Hgrp in E. contradiction.
Qed.

Lemma get_statistics_inv (srv : server) (args : statistics_args)
    (tbl : dose_log) (st : statistics) :
  statistics_of (get_statistics srv args tbl) = Some st ->
  exists days lo,
    db_fault srv = None /\ days_of args = inr days
    /\ Py.minus_days (now srv) days = inr lo.
Proof.
  unfold get_statistics, Pg.get_db_connection.
  destruct (days_of args) as [e|days] eqn:Hdays; [discriminate|].
  destruct (db_fault srv) as [msg|] eqn:Hdb; [discriminate|].
  cbn [bind].
  destruct (Py.minus_days (now srv) days) as [e|lo] eqn:Hlo; [discriminate|].
  intros _. now exists days, lo.
Qed.

Lemma minus_days_inv (t n t' : Z) :
  Py.minus_days t n = inr t' -> t' = t - n * Calendar.usec_per_day.
Proof.
  unfold Py.minus_days. destruct (_ || _); [discriminate|].
  destruct (_ || _); [discriminate|]. now intros [= <-].
Qed.

(** ** GET /api/statistics: the streaks *)

(** What [current_streak] is on every window: the run of complete days
    counted from the oldest date present, where the scan ends. *)
Lemma current_streak_is_oldest_run (srv : server) (args : statistics_args)
    (tbl : dose_log) (days lo : Z) :
  db_fault srv = None ->
  days_of args = inr days ->
  Py.minus_days (now srv) days = inr lo ->
  let w := Pg.window lo (now srv) tbl in
  exists st,
    statistics_of (get_statistics srv args tbl) = Some st
    /\ current_streak st = run_length w (rev (Pg.group_dates w)).
Proof.
  intros Hdb Hdays Hlo w.
  rewrite (get_statistics_ok srv args tbl days lo Hdb Hdays Hlo).
  eexists. split; [reflexivity|]. cbn [current_streak].
  apply streak_scan_run.
Qed.

(** C1: with 3 TAKEN on each of the three days before today and 1 TAKEN
    today, the run of complete days counted back from the most recent date
    is empty, and yet the [current_streak] the handler reports is 3: the
    counter, which the scan leaves at the oldest date, holds the run that
    starts there. *)
Theorem current_streak_after_incomplete_today :
  let w := Sample.logged Sample.three_full_days in
  Pg.group_dates w
    = [Sample.today; Sample.today - 1; Sample.today - 2; Sample.today - 3]
  /\ map (fun d => count_on "TAKEN" d w) (Pg.group_dates w) = [1; 3; 3; 3]
  /\ run_length w (Pg.group_dates w) = 0
  /\ current_streak
       <$> statistics_of (get_statistics Sample.srv Sample.thirty_days
                            Sample.three_full_days)
     = Some 3.
Proof. vm_compute. repeat split; reflexivity. Qed.

(** C2: [best_streak] is the largest value reached by a counter that goes
    through the dates of the window, most recent first, adding one on a
    date with at least 3 TAKEN events and returning to 0 on any other date
    present; with the dates D, D-1, D-2 present, 3 TAKEN on D-2 and on D-1
    and 1 TAKEN on D, it is 2. *)
Theorem best_streak_is_max_of_counter (srv : server)
    (args : statistics_args) (tbl : dose_log) (days lo : Z) :
  db_fault srv = None ->
  days_of args = inr days ->
  Py.minus_days (now srv) days = inr lo ->
  let w := Pg.window lo (now srv) tbl in
  exists st,
    statistics_of (get_statistics srv args tbl) = Some st
    /\ StronglySorted Z.gt (Pg.group_dates w)
    /\ (forall d, In d (Pg.group_dates w) <-> 1 <= events_on d w)
    /\ best_streak st = max_reached (counter_trace w 0 (Pg.group_dates w))
    /\ (forall D,
          Pg.group_dates w = [D; D - 1; D - 2] ->
          count_on "TAKEN" (D - 2) w = 3 ->
          count_on "TAKEN" (D - 1) w = 3 ->
          count_on "TAKEN" D w = 1 ->
          best_streak st = 2).
Proof.
  intros Hdb Hdays Hlo w.
  rewrite (get_statistics_ok srv args tbl days lo Hdb Hdays Hlo).
  eexists. split; [reflexivity|]. cbn [best_streak]. fold w.
  assert (Hbest : fst (streak_scan (map (daily_row w) (Pg.group_dates w)))
                  = max_reached (counter_trace w 0 (Pg.group_dates w))).
  { unfold streak_scan. rewrite streak_scan_trace by lia. cbn [fst].
    pose proof (max_reached_nonneg (counter_trace w 0 (Pg.group_dates w))).
    lia. }
  split; [apply group_dates_sorted|].
  split; [intros d; apply group_dates_events_on|]. split; [exact Hbest|].
  intros D Hds H2 H1 H0. rewrite Hbest, Hds.
  cbn [counter_trace]. unfold complete. rewrite H0, H1, H2. reflexivity.
Qed.

Lemma best_streak_is_max_of_counter_witness :
  exists st,
    statistics_of (get_statistics Sample.srv Sample.thirty_days
                     Sample.two_full_days) = Some st
    /\ best_streak st = 2.
Proof.
  destruct (best_streak_is_max_of_counter Sample.srv Sample.thirty_days
              Sample.two_full_days 30 Sample.month_start)
    as (st & Hst & _ & _ & _ & Hscenario); try reflexivity.
  exists st. split; [exact Hst|].
  apply (Hscenario Sample.today); vm_compute; reflexivity.
Defined.

(** C4: the dates the streak scan goes through are exactly the dates on
    which an event of the window falls, so a date without events is not
    among them; the counter is reset only at a scanned date, which has at
    least one event, with fewer than 3 TAKEN events; and when every date
    with events is complete, the days without events in between break
    neither streak. *)
Theorem streak_resets_only_on_logged_days (srv : server)
    (args : statistics_args) (tbl : dose_log) (days lo : Z) :
  db_fault srv = None ->
  days_of args = inr days ->
  Py.minus_days (now srv) days = inr lo ->
  let w := Pg.window lo (now srv) tbl in
  let daily_data := Pg.select_daily lo (now srv) tbl in
  exists st,
    statistics_of (get_statistics srv args tbl) = Some st
    /\ (best_streak st, current_streak st) = streak_scan daily_data
    /\ (forall d, events_on d w = 0 ->
          ~ In d (map (fun day_data => fst (fst day_data)) daily_data))
    /\ (forall before day_data after,
          daily_data = before ++ day_data :: after ->
          snd (streak_scan (before ++ [day_data]))
            <> snd (streak_scan before) + 1 ->
          let '(d, total_doses, taken_doses) := day_data in
          total_doses = events_on d w /\ 1 <= total_doses
          /\ taken_doses = count_on "TAKEN" d w /\ taken_doses < 3)
    /\ ((forall d, 1 <= events_on d w -> 3 <= count_on "TAKEN" d w) ->
        best_streak st = Z.of_nat (length (Pg.group_dates w))
        /\ current_streak st = Z.of_nat (length (Pg.group_dates w))).
Proof.
  intros Hdb Hdays Hlo w daily_data.
  rewrite (get_statistics_ok srv args tbl days lo Hdb Hdays Hlo).
  eexists. split; [reflexivity|]. cbn [best_streak current_streak]. fold w.
  assert (Hrows : daily_data = map (daily_row w) (Pg.group_dates w))
    by apply select_daily_rows.
  rewrite Hrows. split; [now destruct (streak_scan _)|]. split; [|split].
  - intros d Hd Hin. rewrite map_map in Hin. cbn in Hin. rewrite map_id in Hin.
    apply group_dates_events_on in Hin. lia.
  - intros before [[d total_doses] taken_doses] after Hsplit Hreset.
    assert (Hin : In (d, total_doses, taken_doses)
                     (map (daily_row w) (Pg.group_dates w)))
      by (rewrite Hsplit; apply in_or_app; right; now left).
    apply in_map_iff in Hin as (d' & [= -> <- <-] & Hd').
    apply group_dates_events_on in Hd'.
    rewrite streak_scan_snoc in Hreset.
    destruct (streak_scan before) as [b c].
    change (d, events_on d w, count_on "TAKEN" d w)
      with (daily_row w d) in Hreset.
    rewrite streak_step_row in Hreset. unfold complete in Hreset.
    destruct (3 <=? count_on "TAKEN" d w) eqn:E;
      [cbn in Hreset; lia | apply Z.leb_gt in E].
    repeat split; [exact Hd' | exact E].
  - intros Hall. rewrite streak_scan_all_complete; [now split|].
    intros d Hd. apply group_dates_events_on in Hd.
    unfold complete. apply Z.leb_le. now apply Hall.
Qed.

Lemma streak_resets_only_on_logged_days_witness :
  exists st,
    statistics_of (get_statistics Sample.srv Sample.thirty_days
                     Sample.two_full_days) = Some st
    /\ ~ In (Sample.today - 5)
         (map (fun day_data => fst (fst day_data))
              (Pg.select_daily Sample.month_start Sample.noon
                 Sample.two_full_days))
    /\ (let '(d, total_doses, taken_doses) := (Sample.today, 3, 1) in
        total_doses = events_on d (Sample.logged Sample.two_full_days)
        /\ 1 <= total_doses
        /\ taken_doses = count_on "TAKEN" d (Sample.logged Sample.two_full_days)
        /\ taken_doses < 3).
Proof.
  destruct (streak_resets_only_on_logged_days Sample.srv Sample.thirty_days
              Sample.two_full_days 30 Sample.month_start)
    as (st & Hst & _ & Habsent & Hreset & _); try reflexivity.
  exists st. split; [exact Hst|]. split.
  - apply Habsent. vm_compute. reflexivity.
  - apply (Hreset [] (Sample.today, 3, 1)
             [(Sample.today - 1, 3, 3); (Sample.today - 2, 3, 3)]).
    + vm_compute. reflexivity.
    + vm_compute. discriminate.
Defined.

(** ** GET /api/statistics: totals and adherence *)

(** *** The arithmetic of [round(taken / total * 100, 2)] *)

Lemma digits2_pos_bounds (p : positive) :
  2 ^ (Zpos (digits2_pos p) - 1) <= Zpos p < 2 ^ Zpos (digits2_pos p).
Proof.
  induction p as [p IH|p IH|]; cbn [digits2_pos].
  - rewrite Pos2Z.inj_succ.
    replace (Z.succ (Zpos (digits2_pos p)) - 1)
      with (Z.succ (Zpos (digits2_pos p) - 1)) by lia.
    rewrite !Z.pow_succ_r by lia. lia.
  - rewrite Pos2Z.inj_succ.
    replace (Z.succ (Zpos (digits2_pos p)) - 1)
      with (Z.succ (Zpos (digits2_pos p) - 1)) by lia.
    rewrite !Z.pow_succ_r by lia. lia.
  - change (2 ^ 0 <= 1 < 2 ^ 1). rewrite Z.pow_0_r, Z.pow_1_r. lia.
Qed.

Lemma Zdigits2_unique (m d : Z) :
  2 ^ (d - 1) <= m < 2 ^ d -> 0 < d -> Zdigits2 m = d.
Proof.
  intros [Hlo Hhi] Hd.
  assert (Hm : 0 < m).
  { pose proof (Z.pow_pos_nonneg 2 (d - 1)). lia. }
  destruct m as [|p|p]; try lia. cbn [Zdigits2].
  pose proof (digits2_pos_bounds p) as [Hlo' Hhi'].
  set (d' := Zpos (digits2_pos p)) in *.
  assert (H1 : d - 1 < d').
  { apply (Z.pow_lt_mono_r_iff 2); lia. }
  assert (H2 : d' - 1 < d).
  { apply (Z.pow_lt_mono_r_iff 2); lia. }
  lia.
Qed.

Lemma record_of_loc (n d : Z) :
  0 < d -> shr_record_of_loc (n / d) (loc_of n d) = rec_of n d.
Proof.
  intros Hd. unfold loc_of, rec_of.
  pose proof (Z.mod_pos_bound n d Hd) as Hr.
  set (r := n mod d) in *.
  destruct (Z.eqb_spec r 0) as [E0|E0].
  - rewrite E0. cbn [shr_record_of_loc orb negb]. f_equal.
    symmetry. apply Z.leb_gt. lia.
  - destruct (Z.compare_spec (2 * r) d) as [E|E|E];
      cbn [shr_record_of_loc orb negb]; f_equal.
    + symmetry. apply Z.leb_le. lia.
    + rewrite E. rewrite Z.eqb_refl. reflexivity.
    + symmetry. apply Z.leb_gt. lia.
    + destruct (Z.eqb_spec (2 * r) d); [lia | reflexivity].
    + symmetry. apply Z.leb_le. lia.
    + destruct (Z.eqb_spec (2 * r) d); [lia | reflexivity].
Qed.

Lemma loc_of_record (n d : Z) :
  0 < d -> loc_of_shr_record (rec_of n d) = loc_of n d.
Proof.
  intros Hd. unfold loc_of, rec_of.
  pose proof (Z.mod_pos_bound n d Hd) as Hr.
  set (r := n mod d) in *.
  destruct (Z.eqb_spec r 0) as [E0|E0].
  - rewrite E0. cbn [orb negb].
    destruct (Z.leb_spec d (2 * 0)); [lia | reflexivity].
  - cbn [orb].
    destruct (Z.compare_spec (2 * r) d) as [E|E|E];
      destruct (Z.leb_spec d (2 * r)); try lia;
      destruct (Z.eqb_spec (2 * r) d); try lia; reflexivity.
Qed.

Lemma shr_1_nonneg (m : Z) (r s : bool) :
  0 <= m ->
  shr_1 (Build_shr_record m r s)
  = Build_shr_record (m / 2) (Z.odd m) (r || s).
Proof.
  intros Hm. rewrite <- Z.div2_div.
  destruct m as [|[p|p|]|]; try reflexivity. lia.
Qed.

Lemma shr_1_rec (n d : Z) :
  0 <= n -> 0 < d -> shr_1 (rec_of n d) = rec_of n (d * 2).
Proof.
  intros Hn Hd. unfold rec_of at 1.
  rewrite shr_1_nonneg by (apply Z.div_pos; lia).
  unfold rec_of.
  rewrite (Z.rem_mul_r n d 2) by lia.
  rewrite <- (Z.div_div n d 2) by lia.
  pose proof (Z.mod_pos_bound n d Hd) as Hr.
  set (r := n mod d) in *. set (m := n / d) in *.
  rewrite (Zmod_odd m).
  destruct (Z.odd m); f_equal.
  - symmetry. apply Z.leb_le. lia.
  - destruct (Z.leb_spec d (2 * r)), (Z.eqb_spec r 0),
      (Z.eqb_spec (2 * r) d), (Z.eqb_spec (r + d * 1) 0),
      (Z.eqb_spec (2 * (r + d * 1)) (d * 2)); try lia; reflexivity.
  - symmetry. apply Z.leb_gt. lia.
  - destruct (Z.leb_spec d (2 * r)), (Z.eqb_spec r 0),
      (Z.eqb_spec (2 * r) d), (Z.eqb_spec (r + d * 0) 0),
      (Z.eqb_spec (2 * (r + d * 0)) (d * 2)); try lia; reflexivity.
Qed.

Lemma iter_shr_1_rec (p : positive) (n d : Z) :
  0 <= n -> 0 < d ->
  SpecFloat.iter_pos shr_1 p (rec_of n d) = rec_of n (d * 2 ^ Zpos p).
Proof.
  intros Hn. revert d.
  induction p as [p IH|p IH|]; intros d Hd; cbn [SpecFloat.iter_pos].
  - rewrite shr_1_rec, IH, IH by
      (try apply Z.mul_pos_pos; try apply Z.pow_pos_nonneg; lia).
    f_equal. rewrite (Pos2Z.inj_xI p).
    replace (2 * Zpos p + 1) with (1 + Zpos p + Zpos p) by lia.
    rewrite !Z.pow_add_r, Z.pow_1_r by lia. ring.
  - rewrite IH, IH by
      (try apply Z.mul_pos_pos; try apply Z.pow_pos_nonneg; lia).
    f_equal. rewrite (Pos2Z.inj_xO p).
    replace (2 * Zpos p) with (Zpos p + Zpos p) by lia.
    rewrite !Z.pow_add_r by lia. ring.
  - rewrite shr_1_rec by lia. f_equal.
Qed.

Lemma shr_rec (n d e k : Z) :
  0 <= n -> 0 < d -> 0 <= k ->
  shr (rec_of n d) e k = (rec_of n (d * 2 ^ k), e + k).
Proof.
  intros Hn Hd Hk. destruct k as [|p|p]; [| |lia].
  - cbn [shr]. rewrite Z.pow_0_r, Z.mul_1_r, Z.add_0_r. reflexivity.
  - cbn [shr]. rewrite iter_shr_1_rec by lia. reflexivity.
Qed.

Lemma nearest_even_loc (n d : Z) :
  0 < d ->
  round_nearest_even (n / d) (loc_of n d) = Float64.nearest_even n d.
Proof.
  intros Hd. unfold loc_of, Float64.nearest_even.
  pose proof (Z.mod_pos_bound n d Hd) as Hr.
  set (r := n mod d) in *.
  destruct (Z.eqb_spec r 0) as [E0|E0].
  - rewrite E0. cbn [round_nearest_even].
    destruct (Z.compare_spec (2 * 0) d); lia.
  - destruct (2 * r ?= d); reflexivity.
Qed.

Lemma nearest_even_bounds (n d : Z) :
  0 < d ->
  n / d <= Float64.nearest_even n d <= n / d + 1
  /\ 2 * Z.abs (Float64.nearest_even n d * d - n) <= d.
Proof.
  intros Hd. unfold Float64.nearest_even.
  pose proof (Z.mod_pos_bound n d Hd) as Hr.
  pose proof (Z.div_mod n d ltac:(lia)) as Hn.
  set (r := n mod d) in *. set (q := n / d) in *.
  destruct (Z.compare_spec (2 * r) d) as [E|E|E];
    [destruct (Z.even q)| |]; split; try lia.
Qed.

Lemma fexp_normal (x : Z) : -1021 <= x -> fexp 53 1024 x = x - 53.
Proof. unfold fexp, emin. lia. Qed.

Lemma shr_m_rec (n d : Z) : shr_m (rec_of n d) = n / d.
Proof. reflexivity. Qed.

Lemma pow2_pos (k : Z) : 0 <= k -> 0 < 2 ^ k.
Proof. intros. apply Z.pow_pos_nonneg; lia. Qed.

(** Rounding a positive value [n / d * 2 ^ e] whose integer part has at
    least 53 digits, in the range of the normal numbers: the result is
    normalised and lies within half a unit in its last place of the
    value. *)
Lemma binary_round_aux_normal (n d e dg : Z) :
  0 <= n -> 0 < d -> 53 <= dg ->
  2 ^ (dg - 1) <= n / d < 2 ^ dg ->
  -1021 <= dg + e -> dg + e <= 1023 ->
  exists m k,
    binary_round_aux 53 1024 false (n / d) e (loc_of n d)
    = S754_finite false m (e + k)
    /\ 2 ^ 52 <= Zpos m < 2 ^ 53
    /\ dg - 53 <= k <= dg - 52
    /\ 2 * Z.abs (Zpos m * (d * 2 ^ k) - n) <= d * 2 ^ k.
Proof.
  intros Hn Hd Hdg Hm Hlo Hhi.
  unfold binary_round_aux, shr_fexp.
  rewrite (Zdigits2_unique (n / d) dg Hm) by lia.
  rewrite fexp_normal by lia.
  replace (dg + e - 53 - e) with (dg - 53) by lia.
  set (k := dg - 53). assert (Hk : 0 <= k) by (unfold k; lia).
  rewrite record_of_loc, shr_rec by lia.
  pose proof (pow2_pos k Hk) as Hpk.
  set (d' := d * 2 ^ k). assert (Hd' : 0 < d') by (unfold d'; lia).
  cbv beta iota.
  rewrite loc_of_record, shr_m_rec, nearest_even_loc by lia.
  destruct (nearest_even_bounds n d' Hd') as [Hb Hacc].
  set (m1 := Float64.nearest_even n d') in *.
  assert (Hq : 2 ^ 52 <= n / d' < 2 ^ 53).
  { unfold d'. rewrite <- Z.div_div by lia.
    assert (E1 : 2 ^ (dg - 1) = 2 ^ k * 2 ^ 52).
    { rewrite <- Z.pow_add_r by lia. f_equal. unfold k. lia. }
    assert (E2 : 2 ^ dg = 2 ^ k * 2 ^ 53).
    { rewrite <- Z.pow_add_r by lia. f_equal. unfold k. lia. }
    split.
    - apply Z.div_le_lower_bound; lia.
    - apply Z.div_lt_upper_bound; lia. }
  destruct (Z.ltb_spec m1 (2 ^ 53)) as [Hlt|Hge].
  - rewrite (Zdigits2_unique m1 53) by (change (53 - 1) with 52; lia).
    rewrite fexp_normal by lia.
    replace (53 + (e + k) - 53 - (e + k)) with 0 by lia.
    cbn [shr_record_of_loc shr shr_m].
    assert (Hpos : 0 < m1).
    { pose proof (pow2_pos 52). lia. }
    destruct m1 as [|p|p] eqn:Em; try lia.
    replace (e + k <=? 1024 - 53) with true
      by (symmetry; apply Z.leb_le; unfold k; lia).
    exists p, k. fold d'. unfold k at 2 3. repeat split; try lia.
  - assert (Em : m1 = 2 ^ 53) by lia.
    rewrite Em.
    rewrite (Zdigits2_unique (2 ^ 53) 54)
      by (change (54 - 1) with 53;
          pose proof (Z.pow_lt_mono_r 2 53 54); lia).
    rewrite fexp_normal by lia.
    replace (54 + (e + k) - 53 - (e + k)) with 1 by lia.
    cbn [shr_record_of_loc shr SpecFloat.iter_pos].
    rewrite shr_1_nonneg by (pose proof (pow2_pos 53); lia).
    cbn [shr_m].
    replace (2 ^ 53 / 2) with (Zpos 4503599627370496) by reflexivity.
    replace (e + k + 1 <=? 1024 - 53) with true
      by (symmetry; apply Z.leb_le; unfold k; lia).
    exists 4503599627370496%positive, (k + 1).
    replace (e + (k + 1)) with (e + k + 1) by lia.
    split; [reflexivity|].
    split; [split; [reflexivity | reflexivity]|].
    split; [unfold k; lia|].
    rewrite Z.pow_add_r, Z.pow_1_r by lia.
    replace (Zpos 4503599627370496 * (d * (2 ^ k * 2)))
      with (2 ^ 53 * d')
      by (unfold d'; change (2 ^ 53) with (Zpos 4503599627370496 * 2); ring).
    rewrite Em in Hacc. fold d'. lia.
Qed.

Lemma new_location_loc (n d : Z) :
  0 < d -> new_location d (n mod d) = loc_of n d.
Proof.
  intros Hd. unfold new_location, new_location_even, new_location_odd, loc_of.
  pose proof (Z.mod_pos_bound n d Hd) as Hr.
  set (r := n mod d) in *.
  destruct (Z.even d) eqn:Ev; [reflexivity|].
  destruct (r =? 0); [reflexivity|]. f_equal.
  assert (Hodd : Z.odd d = true) by (rewrite <- Z.negb_even, Ev; reflexivity).
  apply Z.odd_spec in Hodd as [c Hc].
  destruct (Z.compare_spec (2 * r + 1) d), (Z.compare_spec (2 * r) d);
    try reflexivity; lia.
Qed.

Lemma div_eucl_div_mod (a b : Z) : Z.div_eucl a b = (a / b, a mod b).
Proof. unfold Z.div, Z.modulo. now destruct (Z.div_eucl a b). Qed.

Lemma pow2_le (a b : Z) : 0 <= a <= b -> 2 ^ a <= 2 ^ b.
Proof. intros. apply Z.pow_le_mono_r; lia. Qed.

Lemma pow2_lt (a b : Z) : 0 <= a < b -> 2 ^ a < 2 ^ b.
Proof. intros. apply Z.pow_lt_mono_r; lia. Qed.

(** The quotient of two positive integers below [2 ^ 50], as a float. *)
Lemma SFdiv_pos_int (a b : positive) :
  Zpos a < 2 ^ 50 -> Zpos b < 2 ^ 50 ->
  exists m e,
    SFdiv 53 1024 (S754_finite false a 0) (S754_finite false b 0)
    = S754_finite false m e
    /\ 2 ^ 52 <= Zpos m < 2 ^ 53
    /\ -102 <= e < 0
    /\ 2 * Z.abs (Zpos m * Zpos b - Zpos a * 2 ^ (- e)) <= Zpos b.
Proof.
  intros Ha Hb. unfold SFdiv, SFdiv_core_binary. cbn [Zdigits2 xorb].
  pose proof (digits2_pos_bounds a) as [Ha1 Ha2].
  pose proof (digits2_pos_bounds b) as [Hb1 Hb2].
  set (d1 := Zpos (digits2_pos a)) in *.
  set (d2 := Zpos (digits2_pos b)) in *.
  assert (Hd1 : 0 < d1 <= 50).
  { split; [reflexivity|].
    assert (d1 - 1 < 50); [|lia].
    apply (Z.pow_lt_mono_r_iff 2); lia. }
  assert (Hd2 : 0 < d2 <= 50).
  { split; [reflexivity|].
    assert (d2 - 1 < 50); [|lia].
    apply (Z.pow_lt_mono_r_iff 2); lia. }
  rewrite fexp_normal by lia.
  replace (Z.min (d1 + 0 - (d2 + 0) - 53) (0 - 0)) with (d1 - d2 - 53)
    by lia.
  set (e' := d1 - d2 - 53).
  replace (0 - 0 - e') with (53 + d2 - d1) by (unfold e'; lia).
  set (s := 53 + d2 - d1). assert (Hs : 0 < s) by (unfold s; lia).
  assert (Hm' : match s with
                | 0 => Zpos a
                | Zpos _ => Z.shiftl (Zpos a) s
                | Zneg _ => 0
                end = Zpos a * 2 ^ s).
  { destruct s; try lia. apply Z.shiftl_mul_pow2. lia. }
  rewrite Hm'. clear Hm'.
  set (n := Zpos a * 2 ^ s).
  rewrite div_eucl_div_mod. cbv beta iota.
  rewrite new_location_loc by lia.
  pose proof (pow2_pos s ltac:(lia)) as Hps.
  assert (Hn : 0 <= n) by (unfold n; lia).
  assert (Hlo : Zpos b * 2 ^ 52 <= n).
  { unfold n.
    assert (E : 2 ^ (d1 - 1) * 2 ^ s = 2 ^ d2 * 2 ^ 52).
    { rewrite <- !Z.pow_add_r by lia. f_equal. unfold s. lia. }
    pose proof (pow2_pos 52 ltac:(lia)).
    nia. }
  assert (Hhi : n < Zpos b * 2 ^ 54).
  { unfold n.
    assert (E : 2 ^ d1 * 2 ^ s = 2 ^ (d2 - 1) * 2 ^ 54).
    { rewrite <- !Z.pow_add_r by lia. f_equal. unfold s. lia. }
    pose proof (pow2_pos 54 ltac:(lia)).
    nia. }
  assert (Hq : 2 ^ 52 <= n / Zpos b < 2 ^ 54).
  { split; [apply Z.div_le_lower_bound | apply Z.div_lt_upper_bound];
      lia. }
  assert (Hdg : exists dg, 53 <= dg <= 54
                           /\ 2 ^ (dg - 1) <= n / Zpos b < 2 ^ dg).
  { destruct (Z.ltb_spec (n / Zpos b) (2 ^ 53)).
    - exists 53. change (53 - 1) with 52. lia.
    - exists 54. change (54 - 1) with 53. lia. }
  destruct Hdg as (dg & Hdg & Hqd).
  destruct (binary_round_aux_normal n (Zpos b) e' dg)
    as (m & k & Heq & Hm & Hk & Hacc); try lia;
    try (unfold e'; lia).
  exists m, (e' + k). split; [exact Heq|]. split; [exact Hm|].
  split; [unfold e'; lia|].
  pose proof (pow2_pos k ltac:(lia)) as Hpk.
  assert (Es : 2 ^ s = 2 ^ (- (e' + k)) * 2 ^ k).
  { rewrite <- Z.pow_add_r by (unfold e'; lia). f_equal.
    unfold s, e'. lia. }
  unfold n in Hacc. rewrite Es in Hacc.
  replace (Zpos m * (Zpos b * 2 ^ k)
           - Zpos a * (2 ^ (- (e' + k)) * 2 ^ k))
    with ((Zpos m * Zpos b - Zpos a * 2 ^ (- (e' + k))) * 2 ^ k)
    in Hacc by ring.
  rewrite Z.abs_mul, (Z.abs_eq (2 ^ k)) in Hacc by lia.
  apply (Z.mul_le_mono_pos_r _ _ (2 ^ k)); [lia|]. lia.
Qed.

(** The product of two positive normal floats, when it is in the range of
    the normal numbers. *)
Lemma SFmul_normal (m1 m2 : positive) (e1 e2 : Z) :
  2 ^ 52 <= Zpos m1 < 2 ^ 53 -> 2 ^ 52 <= Zpos m2 < 2 ^ 53 ->
  -1126 <= e1 + e2 <= 917 ->
  exists m k,
    SFmul 53 1024 (S754_finite false m1 e1) (S754_finite false m2 e2)
    = S754_finite false m (e1 + e2 + k)
    /\ 2 ^ 52 <= Zpos m < 2 ^ 53
    /\ 52 <= k <= 54
    /\ 2 * Z.abs (Zpos m * 2 ^ k - Zpos m1 * Zpos m2) <= 2 ^ k.
Proof.
  intros H1 H2 He. cbn [SFmul xorb].
  rewrite Pos2Z.inj_mul.
  set (n := Zpos m1 * Zpos m2).
  assert (Hn : 2 ^ 104 <= n < 2 ^ 106).
  { unfold n. change (2 ^ 104) with (2 ^ 52 * 2 ^ 52).
    change (2 ^ 106) with (2 ^ 53 * 2 ^ 53).
    pose proof (pow2_pos 52 ltac:(lia)). split; nia. }
  assert (Hdg : exists dg, 105 <= dg <= 106
                           /\ 2 ^ (dg - 1) <= n / 1 < 2 ^ dg).
  { rewrite Z.div_1_r. destruct (Z.ltb_spec n (2 ^ 105)).
    - exists 105. change (105 - 1) with 104. lia.
    - exists 106. change (106 - 1) with 105. lia. }
  destruct Hdg as (dg & Hdg & Hqd).
  assert (Hloc : loc_Exact = loc_of n 1).
  { unfold loc_of. rewrite Z.mod_1_r. reflexivity. }
  rewrite Hloc.
  replace (binary_round_aux 53 1024 false n (e1 + e2) (loc_of n 1))
    with (binary_round_aux 53 1024 false (n / 1) (e1 + e2) (loc_of n 1))
    by (rewrite Z.div_1_r; reflexivity).
  pose proof (pow2_pos 104 ltac:(lia)).
  destruct (binary_round_aux_normal n 1 (e1 + e2) dg)
    as (m & k & Heq & Hm & Hk & Hacc); try lia.
  exists m, k. split; [exact Heq|]. split; [exact Hm|].
  split; [lia|]. rewrite Z.mul_1_l in Hacc. exact Hacc.
Qed.

(** The three rounding errors of [round(taken / total * 100, 2)] put
    together: they are too small to move the result away from an integer
    nearest to [10000 * taken / total]. *)
Lemma hundredths_nearest (n t mq mx k A K B : Z) :
  0 < n < 2 ^ 36 -> 0 <= t <= n ->
  2 ^ 52 <= A -> 0 < K <= 2 ^ 54 -> B * K = A * 2 ^ 46 ->
  2 * Z.abs (mq * n - t * A) <= n ->
  2 * Z.abs (mx * K - mq * (100 * 2 ^ 46)) <= K ->
  2 * Z.abs (k * B - mx * 100) <= B ->
  2 * Z.abs (k * n - 10000 * t) <= n.
Proof.
  intros Hn Ht HA HK HBK H1 H2 H3.
  set (P := 2 ^ 46) in *.
  assert (HP : P = 70368744177664) by reflexivity.
  assert (H52 : 2 ^ 52 = 4503599627370496) by reflexivity.
  assert (H54 : 2 ^ 54 = 18014398509481984) by reflexivity.
  assert (H36 : 2 ^ 36 = 68719476736) by reflexivity.
  rewrite H52 in HA. rewrite H54 in HK. rewrite H36 in Hn.
  clear H52 H54 H36.
  set (E1 := mq * n - t * A) in *.
  set (E2 := mx * K - mq * (100 * P)) in *.
  set (E3 := k * B - mx * 100) in *.
  set (G := k * n - 10000 * t).
  assert (Hid : 2 * G * (B * K)
                = n * K * (2 * E3) + 100 * n * (2 * E2)
                  + 100 * (100 * P) * (2 * E1)).
  { assert (Hd : 2 * G * (B * K)
                  - (n * K * (2 * E3) + 100 * n * (2 * E2)
                     + 100 * (100 * P) * (2 * E1))
                  = 20000 * t * (A * P - B * K))
      by (unfold G, E1, E2, E3; ring).
    rewrite HBK, Z.sub_diag, Z.mul_0_r in Hd. lia. }
  assert (HB0 : 0 < B * K) by nia.
  assert (B3 : Z.abs (n * K * (2 * E3)) <= n * K * B).
  { rewrite Z.abs_mul, (Z.abs_eq (n * K)) by nia.
    apply Z.mul_le_mono_nonneg_l; [nia | lia]. }
  assert (B2 : Z.abs (100 * n * (2 * E2)) <= 100 * n * K).
  { rewrite Z.abs_mul, (Z.abs_eq (100 * n)) by lia.
    apply Z.mul_le_mono_nonneg_l; lia. }
  assert (B1 : Z.abs (100 * (100 * P) * (2 * E1)) <= 100 * (100 * P) * n).
  { rewrite Z.abs_mul, (Z.abs_eq (100 * (100 * P))) by lia.
    apply Z.mul_le_mono_nonneg_l; lia. }
  assert (Hsum : Z.abs (2 * G) * (B * K)
                 <= n * K * B + 100 * n * K + 100 * (100 * P) * n).
  { rewrite <- (Z.abs_eq (B * K)) at 1 by lia.
    rewrite <- Z.abs_mul, Hid. lia. }
  destruct (Z.le_gt_cases (2 * Z.abs G) n) as [Hok|Hbad]; [exact Hok|].
  exfalso.
  assert (Hg : n + 1 <= Z.abs (2 * G)) by lia.
  assert (H4 : (n + 1) * (B * K) <= Z.abs (2 * G) * (B * K)).
  { apply Z.mul_le_mono_nonneg_r; lia. }
  assert (H5 : n * K <= 68719476736 * 18014398509481984).
  { apply Z.mul_le_mono_nonneg; lia. }
  assert (H6 : 4503599627370496 * P <= B * K).
  { rewrite HBK. apply Z.mul_le_mono_nonneg_r; lia. }
  replace (n * K * B) with (n * (B * K)) in Hsum by ring.
  lia.
Qed.

Lemma double_of_hundredths_finite (k : Z) (m : positive) (e : Z) :
  0 < k -> 2 ^ 52 <= Zpos m < 2 ^ 53 -> e < 0 ->
  2 * Z.abs (Zpos m * 100 - k * 2 ^ (- e)) <= 100 ->
  double_of_hundredths k (S754_finite false m e) = true.
Proof.
  intros Hk [Hm1 Hm2] He Hacc. unfold double_of_hundredths.
  apply Z.ltb_lt in Hk, Hm2, He. apply Z.leb_le in Hm1, Hacc.
  rewrite Hk, Hm1, Hm2, He, Hacc. reflexivity.
Qed.

Lemma round2_negative_exponent (m : positive) (e : Z) :
  e < 0 ->
  Float64.round (S754_finite false m e) 2
  = if Float64.nearest_even (Zpos m * 100) (2 ^ (- e)) =? 0
    then S754_zero false
    else Float64.of_decimal
           (Float64.nearest_even (Zpos m * 100) (2 ^ (- e))) 2.
Proof.
  intros He. unfold Float64.round.
  replace (0 <=? e) with false by (symmetry; apply Z.leb_gt; exact He).
  reflexivity.
Qed.

Lemma of_decimal_accuracy (k : Z) :
  0 < k < 2 ^ 50 ->
  double_of_hundredths k (Float64.of_decimal k 2) = true.
Proof.
  intros [Hk Hk50]. destruct k as [|pk|pk]; try lia.
  unfold Float64.of_decimal. change (10 ^ Z.of_nat 2) with 100.
  cbn [Float64.exact].
  assert (H100 : Zpos 100 < 2 ^ 50) by reflexivity.
  destruct (SFdiv_pos_int pk 100 Hk50 H100)
    as (mr & er & Hr & Hmr & Her & Haccr).
  unfold Float64.prec, Float64.emax. rewrite Hr.
  apply double_of_hundredths_finite; [exact Hk | exact Hmr | lia | exact Haccr].
Qed.

(** [round(taken / total * 100, 2)] is a double within half a unit in
    the last place of [k / 100], for an integer [k] nearest to
    [10000 * taken / total]. *)
Lemma percentage_accuracy (taken total : Z) :
  0 <= taken <= total -> 0 < total < 2 ^ 36 ->
  exists k,
    2 * Z.abs (k * total - 10000 * taken) <= total
    /\ double_of_hundredths k (percentage taken total) = true.
Proof.
  intros Ht Hn.
  assert (H36 : 2 ^ 36 < 2 ^ 50) by reflexivity.
  destruct total as [|b|b]; try lia.
  destruct taken as [|a|a]; try lia.
  { exists 0. split; [lia | reflexivity]. }
  unfold percentage. cbn [Float64.exact].
  assert (Ha50 : Zpos a < 2 ^ 50) by lia.
  assert (Hb50 : Zpos b < 2 ^ 50) by lia.
  destruct (SFdiv_pos_int a b Ha50 Hb50)
    as (mq & eq & Hq & Hmq & Heq & Haccq).
  unfold Float64.prec, Float64.emax. rewrite Hq.
  assert (HA : 2 ^ 52 <= 2 ^ (- eq)).
  { pose proof (pow2_pos (- eq) ltac:(lia)) as HpA.
    set (A := 2 ^ (- eq)) in *. nia. }
  assert (Heq' : eq <= -52).
  { apply (Z.pow_le_mono_r_iff 2) in HA; lia. }
  unfold Float64.mul_int.
  change (Float64.of_int 100) with (S754_finite false 7036874417766400 (-46)).
  assert (Hc : 2 ^ 52 <= Zpos 7036874417766400 < 2 ^ 53)
    by (vm_compute; split; [discriminate | reflexivity]).
  assert (Hee : -1126 <= eq + -46 <= 917) by lia.
  destruct (SFmul_normal mq 7036874417766400 eq (-46) Hmq Hc Hee)
    as (mx & kx & Hx & Hmx & Hkx & Haccx).
  clear Hc.
  unfold Float64.prec, Float64.emax. rewrite Hx.
  set (ex := eq + -46 + kx). assert (Hex : ex < 0) by (unfold ex; lia).
  rewrite round2_negative_exponent by exact Hex.
  pose proof (pow2_pos (- ex) ltac:(lia)) as HpB.
  destruct (nearest_even_bounds (Zpos mx * 100) (2 ^ (- ex)) HpB)
    as [[Hk0 _] Hacck].
  assert (Hq0 : 0 <= Zpos mx * 100 / 2 ^ (- ex))
    by (apply Z.div_pos; lia).
  generalize dependent (Float64.nearest_even (Zpos mx * 100) (2 ^ (- ex))).
  intros k Hk0 Hacck.
  assert (HK : 0 < 2 ^ kx <= 2 ^ 54).
  { split; [apply pow2_pos; lia | apply pow2_le; lia]. }
  assert (HBK : 2 ^ (- ex) * 2 ^ kx = 2 ^ (- eq) * 2 ^ 46).
  { rewrite <- !Z.pow_add_r by lia. f_equal. unfold ex. lia. }
  change (Zpos 7036874417766400) with (100 * 2 ^ 46) in Haccx.
  pose proof (hundredths_nearest (Zpos b) (Zpos a) (Zpos mq) (Zpos mx) k
                (2 ^ (- eq)) (2 ^ kx) (2 ^ (- ex))
                Hn Ht HA HK HBK Haccq Haccx Hacck) as Hnear.
  exists k. split; [exact Hnear|].
  destruct (Z.eqb_spec k 0) as [Ek|Ek].
  - rewrite Ek. reflexivity.
  - apply of_decimal_accuracy. split; [lia|].
    assert (Hk1 : k * Zpos b <= 10001 * Zpos b) by lia.
    assert (Hk2 : k <= 10001).
    { apply (Z.mul_le_mono_pos_r _ _ (Zpos b)); lia. }
    assert (H14 : 10001 < 2 ^ 50) by reflexivity.
    lia.
Qed.

Lemma counts_disjoint (w : list dose_event) :
  count_of "TAKEN" w + count_of "MISSED" w <= Pg.count_star w.
Proof.
  unfold count_of, Pg.count_star.
  induction w as [|r w IH]; simpl; [lia|].
  destruct (Pg.has_type "TAKEN" r) eqn:E1,
           (Pg.has_type "MISSED" r) eqn:E2; simpl length; try lia.
  unfold Pg.has_type in E1, E2.
  apply String.eqb_eq in E1, E2. congruence.
Qed.

(** The double that [round] returns for 7 TAKEN out of 9: it lies within
    half a unit in the last place of 77.78. *)
Example float_77_78 :
  percentage 7 9 = S754_finite false 5473280922138706 (-46)
  /\ Z.abs (100 * 5473280922138706 - 7778 * 2 ^ 46) <= 50.
Proof. split; [vm_compute; reflexivity | vm_compute; discriminate]. Qed.

(** C3, as the code has it: when the window holds events (fewer than
    [2 ^ 36]), [adherence_percentage] is a double within half a unit in
    the last place of [k / 100], for an integer [k] nearest to
    [10000 * taken / total]: the quotient [taken / total * 100] to 2
    decimal places, except that on a tie, where the quotient lies halfway
    between two such decimals, either of the two can be returned.  For 7
    TAKEN out of 9 it is the double of 77.78.  When the window holds no
    event it is the integer 0. *)
Theorem adherence_percentage_rounded (srv : server)
    (args : statistics_args) (tbl : dose_log) (days lo : Z) :
  db_fault srv = None ->
  days_of args = inr days ->
  Py.minus_days (now srv) days = inr lo ->
  let w := Pg.window lo (now srv) tbl in
  let total := Pg.count_star w in
  let taken := count_of "TAKEN" w in
  total < 2 ^ 36 ->
  exists st,
    statistics_of (get_statistics srv args tbl) = Some st
    /\ total_doses st = total /\ doses_taken st = taken
    /\ (0 < total ->
        exists x k,
          adherence_percentage st = PyFloat x
          /\ 2 * Z.abs (k * total - 10000 * taken) <= total
          /\ double_of_hundredths k x = true)
    /\ (total = 0 -> adherence_percentage st = PyInt 0)
    /\ (taken = 7 -> total = 9 ->
        adherence_percentage st
        = PyFloat (S754_finite false 5473280922138706 (-46))
        /\ double_of_hundredths 7778
             (S754_finite false 5473280922138706 (-46)) = true).
Proof.
  intros Hdb Hdays Hlo w total taken Hsmall.
  rewrite (get_statistics_ok srv args tbl days lo Hdb Hdays Hlo).
  eexists. split; [reflexivity|].
  cbn [total_doses doses_taken adherence_percentage].
  fold w. fold total. fold taken.
  split; [reflexivity|]. split; [reflexivity|]. split; [|split].
  - intros Hpos.
    assert (Hle : 0 <= taken <= total).
    { pose proof (counts_disjoint w) as Hd. fold total taken in Hd.
      assert (0 <= taken /\ 0 <= count_of "MISSED" w) as [? ?]
        by (unfold taken, count_of, Pg.count_star; lia).
      lia. }
    destruct (percentage_accuracy taken total Hle (conj Hpos Hsmall))
      as (k & Hk & Hx).
    exists (percentage taken total), k.
    split; [|split; assumption].
    apply Z.ltb_lt in Hpos. rewrite Hpos. reflexivity.
  - intros ->. reflexivity.
  - intros -> ->. split; vm_compute; reflexivity.
Qed.

Lemma adherence_percentage_rounded_witness :
  let w := Sample.logged Sample.two_full_days in
  exists st,
    statistics_of (get_statistics Sample.srv Sample.thirty_days
                     Sample.two_full_days) = Some st
    /\ (exists x k,
          adherence_percentage st = PyFloat x
          /\ 2 * Z.abs (k * Pg.count_star w - 10000 * count_of "TAKEN" w)
             <= Pg.count_star w
          /\ double_of_hundredths k x = true)
    /\ adherence_percentage st
       = PyFloat (S754_finite false 5473280922138706 (-46)).
Proof.
  intros w.
  destruct (adherence_percentage_rounded Sample.srv Sample.thirty_days
              Sample.two_full_days 30 Sample.month_start)
    as (st & Hst & _ & _ & Hpos & _ & H79); try reflexivity.
  exists st. split; [exact Hst|]. split.
  - apply Hpos. vm_compute. reflexivity.
  - apply H79; vm_compute; reflexivity.
Defined.

(** C3, as worded, fails on a tie: with 23 TAKEN out of 160 events the
    quotient is 14.375, which to 2 decimal places is 14.38 (a tie going
    up, or to the even digit), and the answer is the double of 14.37. *)
Lemma adherence_percentage_tie_23_of_160 :
  exists st,
    statistics_of (get_statistics Sample.srv Sample.thirty_days Sample.tie)
    = Some st
    /\ total_doses st = 160 /\ doses_taken st = 23
    /\ 1000 * (100 * 23) = 14375 * 160
    /\ hundredths_half_up 23 160 = 1438
    /\ Float64.nearest_even (10000 * 23) 160 = 1438
    /\ adherence_percentage st
       = PyFloat (S754_finite false 8089590830664253 (-49))
    /\ double_of_hundredths 1437
         (S754_finite false 8089590830664253 (-49)) = true
    /\ double_of_hundredths 1438
         (S754_finite false 8089590830664253 (-49)) = false.
Proof.
  eexists. split; [vm_compute; reflexivity|].
  repeat split; vm_compute; reflexivity.
Qed.

(** C8: when no event falls in the window, [adherence_percentage],
    [current_streak] and [best_streak] are all 0 (and so are the totals,
    and the breakdown is empty). *)
Theorem statistics_of_empty_window (srv : server) (args : statistics_args)
    (tbl : dose_log) (days lo : Z) :
  db_fault srv = None ->
  days_of args = inr days ->
  Py.minus_days (now srv) days = inr lo ->
  Pg.window lo (now srv) tbl = [] ->
  get_statistics srv args tbl
  = mk_response 200
      (Statistics days (mk_statistics 0 0 0 (PyInt 0) 0 0) ∅).
Proof.
  intros Hdb Hdays Hlo Hw.
  rewrite (get_statistics_ok srv args tbl days lo Hdb Hdays Hlo).
  unfold Pg.select_daily_events. rewrite Hw. reflexivity.
Qed.

Lemma statistics_of_empty_window_witness :
  get_statistics Sample.srv Sample.default_days Sample.empty
  = mk_response 200 (Statistics 30 (mk_statistics 0 0 0 (PyInt 0) 0 0) ∅).
Proof.
  apply (statistics_of_empty_window Sample.srv Sample.default_days
           Sample.empty 30 Sample.month_start); reflexivity.
Defined.

Lemma window_app (lo hi : Z) (tbl : dose_log) (e : dose_event) (n : Z) :
  Pg.window lo hi (mk_log (rows tbl ++ [e]) n)
  = Pg.window lo hi tbl ++ (if Pg.in_window lo hi e then [e] else []).
Proof. unfold Pg.window. simpl rows. now rewrite List.filter_app. Qed.

Lemma count_of_snoc (t : string) (w : list dose_event) (e : dose_event) :
  count_of t (w ++ [e])
  = count_of t w + (if String.eqb (event_type e) t then 1 else 0).
Proof.
  unfold count_of, Pg.count_star. rewrite List.filter_app, length_app.
  simpl. unfold Pg.has_type. destruct (String.eqb (event_type e) t); simpl; lia.
Qed.

(** What [log_dose] does with a body that only names an event type. *)
Lemma log_dose_event_type (srv : server) (tbl : dose_log) (s : string) :
  db_fault srv = None ->
  log_dose srv (Some (JObj {[ "event_type" := JStr s ]})) tbl
  = (mk_response 201 (Message "success" "Log received"),
     mk_log (rows tbl ++ [mk_event (next_id tbl) s None (now srv)])
            (next_id tbl + 1)).
Proof.
  intros Hdb. unfold log_dose.
  rewrite (truthy_obj_with_key "event_type")
    by (rewrite lookup_singleton_eq; eauto).
  cbn [negb Py.contains Py.get]. rewrite lookup_singleton_eq.
  rewrite bool_decide_eq_true_2 by eauto.
  rewrite lookup_singleton_ne by discriminate.
  unfold Pg.get_db_connection. rewrite Hdb. reflexivity.
Qed.

(** C10: TAKEN and MISSED together never exceed the total; and the total
    is strictly larger once an event of another type is logged, which
    [log_dose] accepts: such an event adds one to [total_doses] and
    nothing to [doses_taken] or [doses_missed]. *)
Theorem taken_and_missed_within_total (srv : server) (tbl : dose_log) :
  (forall args st,
     statistics_of (get_statistics srv args tbl) = Some st ->
     doses_taken st + doses_missed st <= total_doses st)
  /\ (forall s lo,
        db_fault srv = None ->
        Py.minus_days (now srv) 30 = inr lo ->
        s <> "TAKEN" -> s <> "MISSED" ->
        exists tbl' st st',
          log_dose srv (Some (JObj {[ "event_type" := JStr s ]})) tbl
            = (mk_response 201 (Message "success" "Log received"), tbl')
          /\ statistics_of (get_statistics srv (mk_statistics_args None) tbl)
             = Some st
          /\ statistics_of (get_statistics srv (mk_statistics_args None) tbl')
             = Some st'
          /\ total_doses st' = total_doses st + 1
          /\ doses_taken st' = doses_taken st
          /\ doses_missed st' = doses_missed st
          /\ doses_taken st' + doses_missed st' < total_doses st').
Proof.
  split.
  - intros args st Hst.
    destruct (get_statistics_inv _ _ _ _ Hst) as (days & lo & Hdb & Hd & Hlo).
    rewrite (get_statistics_ok srv args tbl days lo Hdb Hd Hlo) in Hst.
    injection Hst as <-. cbn [doses_taken doses_missed total_doses].
    apply counts_disjoint.
  - intros s lo Hdb Hlo Hs1 Hs2.
    do 3 eexists. split; [exact (log_dose_event_type srv tbl s Hdb)|].
    split; [now rewrite (get_statistics_ok srv (mk_statistics_args None)
                           tbl 30 lo Hdb eq_refl Hlo)|].
    split; [now rewrite (get_statistics_ok srv (mk_statistics_args None)
                           _ 30 lo Hdb eq_refl Hlo)|].
    cbn [total_doses doses_taken doses_missed].
    rewrite window_app. apply minus_days_inv in Hlo.
    assert (Hin : Pg.in_window lo (now srv)
                    (mk_event (next_id tbl) s None (now srv)) = true).
    { unfold Pg.in_window. cbn [timestamp]. apply andb_true_intro.
      split; apply Z.leb_le; unfold Calendar.usec_per_day,
        Calendar.usec_per_second in Hlo; lia. }
    rewrite Hin, !count_of_snoc. cbn [event_type].
    apply String.eqb_neq in Hs1, Hs2. rewrite Hs1, Hs2.
    pose proof (counts_disjoint (Pg.window lo (now srv) tbl)).
    unfold Pg.count_star in *. rewrite length_app. simpl length. lia.
Qed.

Lemma taken_and_missed_within_total_witness :
  exists tbl' st',
    log_dose Sample.srv (Some (JObj {[ "event_type" := JStr "SKIPPED" ]}))
             Sample.two_full_days
      = (mk_response 201 (Message "success" "Log received"), tbl')
    /\ statistics_of (get_statistics Sample.srv Sample.default_days tbl')
       = Some st'
    /\ doses_taken st' + doses_missed st' < total_doses st'.
Proof.
  assert (Hother : "SKIPPED" <> "TAKEN" /\ "SKIPPED" <> "MISSED")
    by (split; discriminate).
  destruct (proj2 (taken_and_missed_within_total Sample.srv
                     Sample.two_full_days)
              "SKIPPED" Sample.month_start eq_refl eq_refl
              (proj1 Hother) (proj2 Hother))
    as (tbl' & st & st' & Hlog & _ & Hst' & _ & _ & _ & Hlt).
  exists tbl', st'. split; [exact Hlog|]. split; [exact Hst' | exact Hlt].
Defined.

(** ** GET /api/statistics: the daily breakdown *)

(** C9, as the code has it: [daily_breakdown] has an entry exactly for the
    dates on which an event of the window falls; the entry holds the
    number of the window's TAKEN events and the number of its MISSED
    events on that date, 0 where there is none.  A date without events
    has no entry. *)
Theorem daily_breakdown_of_logged_days (srv : server)
    (args : statistics_args) (tbl : dose_log) (days lo : Z) :
  db_fault srv = None ->
  days_of args = inr days ->
  Py.minus_days (now srv) days = inr lo ->
  let w := Pg.window lo (now srv) tbl in
  exists bd,
    daily_breakdown_of (get_statistics srv args tbl) = Some bd
    /\ forall d,
         bd !! d
         = if 1 <=? events_on d w
           then Some (mk_counts (count_on "TAKEN" d w)
                                (count_on "MISSED" d w))
           else None.
Proof.
  intros Hdb Hdays Hlo w.
  rewrite (get_statistics_ok srv args tbl days lo Hdb Hdays Hlo).
  eexists. split; [reflexivity|]. intros d. apply breakdown_lookup.
Qed.

Lemma daily_breakdown_of_logged_days_witness :
  exists bd,
    daily_breakdown_of (get_statistics Sample.srv Sample.thirty_days
                          Sample.two_full_days) = Some bd
    /\ bd !! Sample.today = Some (mk_counts 1 2)
    /\ bd !! (Sample.today - 5) = None.
Proof.
  destruct (daily_breakdown_of_logged_days Sample.srv Sample.thirty_days
              Sample.two_full_days 30 Sample.month_start)
    as (bd & Hbd & Hlookup); try reflexivity.
  exists bd. split; [exact Hbd|]. split.
  - rewrite Hlookup. vm_compute. reflexivity.
  - rewrite Hlookup. vm_compute. reflexivity.
Defined.

(** C9 as stated fails: 2024-03-05 lies in the 30 days up to the request
    and no event was logged on it; the breakdown does not map it to
    [{taken: 0, missed: 0}], it has no entry for it. *)
Lemma daily_breakdown_skips_days_without_events :
  let d := Sample.today - 5 in
  let w := Sample.logged Sample.two_full_days in
  Pg.DATE Sample.month_start <= d <= Pg.DATE Sample.noon
  /\ exists bd,
       daily_breakdown_of (get_statistics Sample.srv Sample.thirty_days
                             Sample.two_full_days) = Some bd
       /\ bd !! d = None
       /\ bd !! d <> Some (mk_counts (count_on "TAKEN" d w)
                                     (count_on "MISSED" d w)).
Proof.
  split; [vm_compute; split; discriminate|].
  eexists. split; [vm_compute; reflexivity|].
  split; [vm_compute; reflexivity | vm_compute; discriminate].
Qed.

(** * Further properties *)

(** ** POST /log_dose *)

(** What [log_dose] does with a well-formed record. *)
Lemma log_dose_stores (srv : server) (tbl : dose_log)
    (m : gmap string json) (s : string) (dn : option Z) :
  db_fault srv = None ->
  m !! "event_type" = Some (JStr s) ->
  Pg.adapt_dose_number (default JNull (m !! "dose_number")) = Some dn ->
  log_dose srv (Some (JObj m)) tbl
  = (mk_response 201 (Message "success" "Log received"),
     mk_log (rows tbl ++ [logged_event srv tbl s dn]) (next_id tbl + 1)).
Proof.
  intros Hdb Het Hdn. unfold log_dose.
  rewrite (truthy_obj_with_key "event_type") by (rewrite Het; eauto).
  cbn [negb Py.contains Py.get]. rewrite Het.
  rewrite bool_decide_eq_true_2 by eauto. cbn [default].
  unfold Pg.get_db_connection. rewrite Hdb.
  unfold Pg.insert. cbn [Pg.adapt_event_type]. rewrite Hdn. reflexivity.
Qed.

(** X1: with the database reachable, a JSON object whose [event_type] is
    a string and whose [dose_number] is an integer, null or missing is
    answered with 201, and the table is the old one followed by exactly
    one new row that carries these two values, the next id and the time of
    the request. *)
Theorem log_dose_persists_event (srv : server) (tbl : dose_log)
    (m : gmap string json) (s : string) (dn : option Z) :
  db_fault srv = None ->
  m !! "event_type" = Some (JStr s) ->
  Pg.adapt_dose_number (default JNull (m !! "dose_number")) = Some dn ->
  log_dose srv (Some (JObj m)) tbl
  = (mk_response 201 (Message "success" "Log received"),
     mk_log (rows tbl ++ [logged_event srv tbl s dn]) (next_id tbl + 1)).
Proof. exact (log_dose_stores srv tbl m s dn). Qed.

Lemma log_dose_persists_event_witness :
  log_dose Sample.srv (Some (JObj Requests.taken_2)) Sample.two_full_days
  = (mk_response 201 (Message "success" "Log received"),
     mk_log (rows Sample.two_full_days
             ++ [mk_event 10 "TAKEN" (Some 2) Sample.noon]) 11).
Proof.
  apply (log_dose_persists_event Sample.srv Sample.two_full_days
           Requests.taken_2 "TAKEN" (Some 2)); vm_compute; reflexivity.
Defined.

(** X2: whatever the request and the state of the database, [log_dose]
    answers 201, 400 or 500; it leaves the table as it was unless it
    answers 201, and then the table has grown by exactly one row, stamped
    with the time of the request, at its end. *)
Theorem log_dose_changes_table_only_on_201 (srv : server)
    (data : option json) (tbl : dose_log) :
  let '(r, tbl') := log_dose srv data tbl in
  (status_code r = 201
   /\ exists e, tbl' = mk_log (rows tbl ++ [e]) (next_id tbl + 1)
                /\ id e = next_id tbl /\ timestamp e = now srv)
  \/ ((status_code r = 400 \/ status_code r = 500) /\ tbl' = tbl).
Proof.
  unfold log_dose. destruct data as [d|]; [|right; split; [now left | reflexivity]].
  destruct (negb (Py.truthy d)); [right; split; [now left | reflexivity]|].
  destruct (Py.contains "event_type" d) as [e|[|]];
    [right; split; [now right | reflexivity]| |
     right; split; [now left | reflexivity]].
  destruct (Py.get "event_type" d) as [e|et];
    [right; split; [now right | reflexivity]|].
  destruct (Py.get "dose_number" d) as [e|dn];
    [right; split; [now right | reflexivity]|].
  destruct (Pg.get_db_connection srv) as [e|[]];
    [right; split; [now right | reflexivity]|].
  unfold Pg.insert.
  destruct (Pg.adapt_event_type et) as [s|];
    [|right; split; [now right | reflexivity]].
  destruct (Pg.adapt_dose_number dn) as [n|];
    [|right; split; [now right | reflexivity]].
  left. split; [reflexivity|]. eexists. split; [reflexivity|].
  split; reflexivity.
Qed.

(** X3: when the database cannot be reached, [log_dose] (for a body that
    passes the check) and [get_events] (for any parameters) answer 500
    with the driver's message, and [log_dose] stores nothing. *)
Theorem handlers_report_database_failure (srv : server) (tbl : dose_log)
    (msg : string) :
  db_fault srv = Some msg ->
  (forall m : gmap string json,
     is_Some (m !! "event_type") ->
     log_dose srv (Some (JObj m)) tbl
     = (mk_response 500 (Failure (DatabaseError msg)), tbl))
  /\ (forall args,
        get_events srv args tbl
        = mk_response 500 (Failure (DatabaseError msg))).
Proof.
  intros Hdb. split.
  - intros m Hm. unfold log_dose.
    rewrite (truthy_obj_with_key _ _ Hm). cbn [negb Py.contains Py.get].
    rewrite bool_decide_eq_true_2 by exact Hm.
    unfold Pg.get_db_connection. rewrite Hdb. reflexivity.
  - intros args. unfold get_events, Pg.get_db_connection.
    rewrite Hdb. reflexivity.
Qed.

Lemma handlers_report_database_failure_witness :
  log_dose Requests.down (Some (JObj Requests.taken_2)) Sample.two_full_days
  = (mk_response 500 (Failure (DatabaseError "connection refused")),
     Sample.two_full_days)
  /\ get_events Requests.down Requests.all_events Sample.two_full_days
     = mk_response 500 (Failure (DatabaseError "connection refused")).
Proof.
  destruct (handlers_report_database_failure Requests.down
              Sample.two_full_days "connection refused" eq_refl)
    as [Hlog Hevents].
  split; [|exact (Hevents Requests.all_events)].
  apply Hlog. exists (JStr "TAKEN"). vm_compute. reflexivity.
Defined.

(** X4: a body that is not a JSON object and that Python takes for true
    never reaches the INSERT.  On a number other than 0 and on [true] the
    test ['event_type' not in data] raises TypeError; on a list with the
    element ["event_type"] and on a string that contains it the test
    passes and [data.get] raises AttributeError.  Either way the exception
    leaves the handler, the answer is the 500 page and the table is
    unchanged. *)
Theorem log_dose_body_not_an_object (srv : server) (tbl : dose_log) :
  (forall n, n <> 0 ->
     log_dose srv (Some (JNum n)) tbl = (unhandled TypeError, tbl))
  /\ log_dose srv (Some (JBool true)) tbl = (unhandled TypeError, tbl)
  /\ (forall l, existsb (Py.eq_str "event_type") l = true ->
        log_dose srv (Some (JArr l)) tbl = (unhandled AttributeError, tbl))
  /\ (forall s, Py.substring_of "event_type" s = true ->
        log_dose srv (Some (JStr s)) tbl = (unhandled AttributeError, tbl)).
Proof.
  split; [|split; [reflexivity|split]].
  - intros n Hn. unfold log_dose. cbn [Py.truthy Py.contains].
    destruct (n =? 0) eqn:E; [apply Z.eqb_eq in E; contradiction|].
    reflexivity.
  - intros l Hl. unfold log_dose. cbn [Py.truthy Py.contains].
    rewrite Hl. destruct l; [discriminate | reflexivity].
  - intros s Hs. unfold log_dose. cbn [Py.truthy Py.contains].
    rewrite Hs. destruct s; [discriminate | reflexivity].
Qed.

Lemma log_dose_body_not_an_object_witness :
  log_dose Sample.srv (Some (JNum 5)) Sample.empty
  = (unhandled TypeError, Sample.empty)
  /\ log_dose Sample.srv (Some (JArr [JStr "event_type"])) Sample.empty
     = (unhandled AttributeError, Sample.empty).
Proof.
  destruct (log_dose_body_not_an_object Sample.srv Sample.empty)
    as (Hnum & _ & Hlist & _).
  split; [apply Hnum; discriminate | apply Hlist; reflexivity].
Defined.

(** ** GET /api/events *)

Lemma insert_desc_perm {A : Type} (key : A -> Z) (x : A) (l : list A) :
  Permutation (Pg.insert_desc key x l) (x :: l).
Proof.
  induction l as [|y l IH]; simpl; [reflexivity|].
  destruct (key y <? key x); [reflexivity|].
  rewrite IH. apply perm_swap.
Qed.

Lemma order_by_desc_perm {A : Type} (key : A -> Z) (l : list A) :
  Permutation (Pg.order_by_desc key l) l.
Proof.
  unfold Pg.order_by_desc. induction l as [|x l IH]; simpl; [reflexivity|].
  rewrite insert_desc_perm. now apply perm_skip.
Qed.

Lemma order_by_desc_length {A : Type} (key : A -> Z) (l : list A) :
  length (Pg.order_by_desc key l) = length l.
Proof. apply Permutation_length, order_by_desc_perm. Qed.

(** A row newer than all others comes first. *)
Lemma order_by_desc_newest {A : Type} (key : A -> Z) (l : list A) (x : A) :
  (forall y, In y l -> key y < key x) ->
  Pg.order_by_desc key (l ++ [x]) = x :: Pg.order_by_desc key l.
Proof.
  unfold Pg.order_by_desc. intros Hx. rewrite fold_right_app. simpl.
  induction l as [|y l IH]; simpl; [reflexivity|].
  rewrite IH by (intros z Hz; apply Hx; now right). simpl.
  destruct (key x <? key y) eqn:E; [|reflexivity].
  apply Z.ltb_lt in E. specialize (Hx y (or_introl eq_refl)). lia.
Qed.

Lemma filter_length_le {A : Type} (f : A -> bool) (l : list A) :
  (length (List.filter f l) <= length l)%nat.
Proof.
  induction l as [|x l IH]; simpl; [lia|]. destruct (f x); simpl; lia.
Qed.

(** What is known of a request that [get_events] answered with events. *)
Lemma get_events_inv (srv : server) (args : events_args) (tbl : dose_log)
    (evs : list event_view) :
  events_of (get_events srv args tbl) = Some evs ->
  exists keep n,
    db_fault srv = None
    /\ Pg.eval_where (events_conditions args) = inr keep
    /\ Pg.eval_limit (events_limit args) = inr n
    /\ evs = map view (firstn n (Pg.order_by_desc timestamp
                                   (List.filter keep (rows tbl)))).
Proof.
  unfold get_events, Pg.get_db_connection, Pg.select_events.
  destruct (db_fault srv) as [msg|] eqn:Hdb; [discriminate|]. cbn [bind].
  destruct (Pg.eval_where (events_conditions args)) as [e|keep] eqn:Hw;
    [discriminate|]. cbn [bind].
  destruct (Pg.eval_limit (events_limit args)) as [e|n] eqn:Hl;
    [discriminate|]. cbn [bind events_of payload].
  intros [= <-]. now exists keep, n.
Qed.

(** X5: an event that [log_dose] has stored is returned by [get_events],
    with its [event_type] and [dose_number], whenever the bounds that are
    given include the time of its insertion: as some row of the answer if
    the table held fewer rows than the LIMIT, and as the first row if all
    other rows are older and the LIMIT is not 0. *)
Theorem logged_event_is_retrievable (srv : server) (tbl : dose_log)
    (m : gmap string json) (s : string) (dn : option Z)
    (args : events_args) (lo hi : option Z) (n : nat) :
  db_fault srv = None ->
  m !! "event_type" = Some (JStr s) ->
  Pg.adapt_dose_number (default JNull (m !! "dose_number")) = Some dn ->
  date_param (start_date args) = Some lo ->
  date_param (end_date args) = Some hi ->
  within lo hi (now srv) = true ->
  Pg.eval_limit (events_limit args) = inr n ->
  let tbl' := snd (log_dose srv (Some (JObj m)) tbl) in
  let v := mk_view (next_id tbl) s dn (now srv) in
  exists evs,
    get_events srv args tbl' = mk_response 200 (Events (length evs) evs)
    /\ ((length (rows tbl) < n)%nat -> In v evs)
    /\ ((0 < n)%nat -> (forall r, In r (rows tbl) -> timestamp r < now srv) ->
        hd_error evs = Some v).
Proof.
  intros Hdb Het Hdn Hlo Hhi Hin Hlim tbl' v. subst tbl'.
  rewrite (log_dose_stores srv tbl m s dn Hdb Het Hdn). cbn [snd].
  destruct (eval_where_events args lo hi Hlo Hhi) as (keep & Hw & Hkeep).
  rewrite (get_events_ok srv args _ keep n Hdb Hw Hlim). cbn [rows].
  eexists. split; [reflexivity|].
  assert (Hk : keep (logged_event srv tbl s dn) = true)
    by (rewrite Hkeep; exact Hin).
  rewrite List.filter_app. cbn [List.filter]. rewrite Hk. split.
  - intros Hroom. rewrite firstn_all2.
    + change v with (view (logged_event srv tbl s dn)). apply in_map.
      apply order_by_desc_In, in_or_app. right. now left.
    + rewrite order_by_desc_length, length_app. simpl length.
      pose proof (filter_length_le keep (rows tbl)). lia.
  - intros Hn Hold. rewrite order_by_desc_newest.
    + destruct n as [|n]; [lia | reflexivity].
    + intros r Hr. apply List.filter_In in Hr as [Hr _].
      exact (Hold r Hr).
Qed.

Lemma logged_event_is_retrievable_witness :
  exists evs,
    get_events Sample.srv Sample.two_rows
      (snd (log_dose Sample.srv (Some (JObj Requests.taken_2))
              Sample.two_full_days))
    = mk_response 200 (Events (length evs) evs)
    /\ hd_error evs = Some (mk_view 10 "TAKEN" (Some 2) Sample.noon).
Proof.
  destruct (logged_event_is_retrievable Sample.srv Sample.two_full_days
              Requests.taken_2 "TAKEN" (Some 2) Sample.two_rows None None 2)
    as (evs & Hevs & _ & Hfirst); try (vm_compute; reflexivity).
  exists evs. split; [exact Hevs|]. apply Hfirst; [lia|].
  intros r Hr. vm_compute in Hr.
  repeat (destruct Hr as [<-|Hr]; [vm_compute; reflexivity|]).
  destruct Hr.
Defined.

(** X6: a date parameter that is sent empty is ignored, exactly as if it
    had not been sent; an empty [limit] is not: it goes to the engine as
    the LIMIT, is refused there, and the answer is 500. *)
Theorem empty_parameters (srv : server) (tbl : dose_log) :
  (forall e l,
     get_events srv (mk_events_args (Some "") e l) tbl
     = get_events srv (mk_events_args None e l) tbl)
  /\ (forall b l,
        get_events srv (mk_events_args b (Some "") l) tbl
        = get_events srv (mk_events_args b None l) tbl)
  /\ (forall b e,
        status_code (get_events srv (mk_events_args b e (Some "")) tbl)
        = 500).
Proof.
  split; [reflexivity|]. split; [reflexivity|].
  intros b e. unfold get_events, Pg.select_events.
  destruct (Pg.get_db_connection srv); [reflexivity|]. cbn [bind].
  destruct (Pg.eval_where _); reflexivity.
Qed.

(** X7: when no two stored rows carry the same timestamp, so that the
    order of the answer is determined, the LIMIT only cuts the answer
    short: with the same date parameters, the events returned under a
    smaller LIMIT are the first ones of those returned under a larger
    LIMIT, in the same order. *)
Theorem get_events_limit_prefix (srv : server) (tbl : dose_log)
    (b e l1 l2 : option string) (n1 n2 : nat) (evs : list event_view) :
  List.NoDup (map timestamp (rows tbl)) ->
  events_of (get_events srv (mk_events_args b e l2) tbl) = Some evs ->
  Pg.eval_limit (events_limit (mk_events_args b e l1)) = inr n1 ->
  Pg.eval_limit (events_limit (mk_events_args b e l2)) = inr n2 ->
  (n1 <= n2)%nat ->
  get_events srv (mk_events_args b e l1) tbl
  = mk_response 200 (Events (length (firstn n1 evs)) (firstn n1 evs)).
Proof.
  intros _ Hevs H1 H2 Hle.
  apply get_events_inv in Hevs as (keep & n & Hdb & Hw & Hl & ->).
  rewrite Hl in H2. injection H2 as ->.
  rewrite (get_events_ok srv (mk_events_args b e l1) tbl keep n1 Hdb Hw H1).
  rewrite <- firstn_map, <- (firstn_map view n2).
  rewrite firstn_firstn, Nat.min_l by exact Hle. reflexivity.
Qed.

Lemma get_events_limit_prefix_witness :
  exists evs,
    events_of (get_events Sample.srv Requests.all_events
                 Sample.two_full_days) = Some evs
    /\ get_events Sample.srv Sample.two_rows Sample.two_full_days
       = mk_response 200 (Events (length (firstn 2 evs)) (firstn 2 evs)).
Proof.
  eexists. split; [vm_compute; reflexivity|].
  apply (get_events_limit_prefix Sample.srv Sample.two_full_days
           None None (Some "2") None 2 100);
    [|vm_compute; reflexivity | reflexivity | reflexivity | lia].
  vm_compute. repeat constructor; simpl; intuition discriminate.
Defined.

Lemma filter_ext_length {A : Type} (f g : A -> bool) (l : list A) :
  (forall x, f x = g x) -> List.filter f l = List.filter g l.
Proof.
  intros H. induction l as [|x l IH]; simpl; [reflexivity|].
  now rewrite H, IH.
Qed.

(** X8: the answer holds as many rows as the smaller of the LIMIT and the
    number of stored rows within the given bounds; and when the LIMIT does
    not cut, the answer is those rows, each one once. *)
Theorem get_events_returns_each_match_once (srv : server)
    (args : events_args) (tbl : dose_log) (lo hi : option Z) (n : nat) :
  db_fault srv = None ->
  date_param (start_date args) = Some lo ->
  date_param (end_date args) = Some hi ->
  Pg.eval_limit (events_limit args) = inr n ->
  let matches :=
    List.filter (fun r => within lo hi (timestamp r)) (rows tbl) in
  exists evs,
    get_events srv args tbl = mk_response 200 (Events (length evs) evs)
    /\ length evs = Nat.min n (length matches)
    /\ ((length matches <= n)%nat -> Permutation evs (map view matches)).
Proof.
  intros Hdb Hlo Hhi Hlim matches.
  destruct (eval_where_events args lo hi Hlo Hhi) as (keep & Hw & Hkeep).
  rewrite (get_events_ok srv args tbl keep n Hdb Hw Hlim).
  rewrite (filter_ext_length keep (fun r => within lo hi (timestamp r)))
    by exact Hkeep.
  fold matches. eexists. split; [reflexivity|]. split.
  - now rewrite length_map, length_firstn, order_by_desc_length.
  - intros Hfit. rewrite firstn_all2
      by (now rewrite order_by_desc_length).
    apply Permutation_map, order_by_desc_perm.
Qed.

Lemma get_events_returns_each_match_once_witness :
  exists evs,
    get_events Sample.srv Sample.two_days Sample.two_full_days
    = mk_response 200 (Events (length evs) evs)
    /\ length evs = 6%nat.
Proof.
  destruct (get_events_returns_each_match_once Sample.srv Sample.two_days
              Sample.two_full_days (Some 19790) (Some 19791) 100)
    as (evs & Hevs & Hlen & _); try reflexivity.
  exists evs. split; [exact Hevs | exact Hlen].
Defined.

(** X9: when [start_date] names a later day than [end_date], no stored
    row can lie within the bounds: the answer is 200 with no events, not
    an error. *)
Theorem get_events_reversed_range (srv : server) (args : events_args)
    (tbl : dose_log) (d1 d2 : Z) (n : nat) :
  db_fault srv = None ->
  date_param (start_date args) = Some (Some d1) ->
  date_param (end_date args) = Some (Some d2) ->
  d2 < d1 ->
  Pg.eval_limit (events_limit args) = inr n ->
  get_events srv args tbl = mk_response 200 (Events 0 []).
Proof.
  intros Hdb Hlo Hhi Hlt Hlim.
  destruct (eval_where_events args _ _ Hlo Hhi) as (keep & Hw & Hkeep).
  rewrite (get_events_ok srv args tbl keep n Hdb Hw Hlim).
  assert (Hnone : List.filter keep (rows tbl) = []).
  { induction (rows tbl) as [|r l IH]; [reflexivity|]. simpl.
    rewrite IH, Hkeep. unfold within, end_of_day, Calendar.midnight,
      Calendar.usec_per_day, Calendar.usec_per_second.
    destruct (_ <=? timestamp r) eqn:E1; [|reflexivity].
    destruct (timestamp r <=? _) eqn:E2; [|reflexivity].
    apply Z.leb_le in E1, E2. lia. }
  rewrite Hnone. simpl. now rewrite firstn_nil.
Qed.

Lemma get_events_reversed_range_witness :
  get_events Sample.srv Requests.reversed Sample.two_full_days
  = mk_response 200 (Events 0 []).
Proof.
  apply (get_events_reversed_range Sample.srv Requests.reversed
           Sample.two_full_days 19791 19790 100);
    [reflexivity | reflexivity | reflexivity | lia | reflexivity].
Defined.

(** ** GET /api/statistics: requests that fail or cover nothing *)

Lemma int_of_str_error (s : string) (e : py_exn) :
  Py.int_of_str s = inl e -> e = ValueError s.
Proof.
  unfold Py.int_of_str.
  destruct (match Text.strip Py.is_space s with
            | String "-" rest => Z.opp <$> Py.digits_from 0 false rest
            | String "+" rest => Py.digits_from 0 false rest
            | _ => Py.digits_from 0 false (Text.strip Py.is_space s)
            end); [discriminate | now intros [= <-]].
Qed.

(** X10: the ways [get_statistics] fails, for a [days] of ASCII text
    (of at most 4300 characters).  A [days] that is not an integer
    literal is answered with 500 and the ValueError of [int()], before the
    database is touched and so whether or not it can be reached; with
    [days] read, an unreachable database gives 500 with the driver's
    message; and a [days] of magnitude above 999999999, which [timedelta]
    does not take, gives 500 with its OverflowError. *)
Theorem get_statistics_failures (srv : server) (tbl : dose_log) :
  (forall s e,
     plain s = true ->
     Py.int_of_str s = inl e ->
     get_statistics srv (mk_statistics_args (Some s)) tbl
     = mk_response 500 (Failure (ValueError s)))
  /\ (forall args n msg,
        plain_days args = true ->
        days_of args = inr n -> db_fault srv = Some msg ->
        get_statistics srv args tbl
        = mk_response 500 (Failure (DatabaseError msg)))
  /\ (forall args n,
        plain_days args = true ->
        days_of args = inr n -> db_fault srv = None ->
        n < -999999999 \/ 999999999 < n ->
        get_statistics srv args tbl
        = mk_response 500 (Failure OverflowError)).
Proof.
  split; [|split].
  - intros s e _ He. pose proof (int_of_str_error s e He) as ->.
    unfold get_statistics, days_of. cbn [days]. rewrite He. reflexivity.
  - intros args n msg _ Hn Hdb. unfold get_statistics, Pg.get_db_connection.
    rewrite Hn, Hdb. reflexivity.
  - intros args n _ Hn Hdb Hrange.
    unfold get_statistics, Pg.get_db_connection, Py.minus_days.
    rewrite Hn, Hdb. cbn [bind].
    assert (Hout : (n <? -999999999) || (999999999 <? n) = true).
    { apply orb_true_iff. destruct Hrange as [H|H];
        [left | right]; now apply Z.ltb_lt. }
    rewrite Hout. reflexivity.
Qed.

Lemma get_statistics_failures_witness :
  get_statistics Requests.down Requests.not_a_number Sample.two_full_days
  = mk_response 500 (Failure (ValueError "week"))
  /\ get_statistics Requests.down Sample.thirty_days Sample.two_full_days
     = mk_response 500 (Failure (DatabaseError "connection refused"))
  /\ get_statistics Sample.srv (mk_statistics_args (Some "1000000000"))
       Sample.two_full_days
     = mk_response 500 (Failure OverflowError).
Proof.
  split; [|split].
  - apply (proj1 (get_statistics_failures Requests.down
                    Sample.two_full_days) "week" (ValueError "week"));
      reflexivity.
  - apply (proj1 (proj2 (get_statistics_failures Requests.down
                           Sample.two_full_days))
             Sample.thirty_days 30 "connection refused"); reflexivity.
  - apply (proj2 (proj2 (get_statistics_failures Sample.srv
                           Sample.two_full_days))
             (mk_statistics_args (Some "1000000000")) 1000000000);
      [reflexivity | reflexivity | reflexivity | right; lia].
Defined.

Lemma filter_none {A : Type} (f : A -> bool) (l : list A) :
  (forall x, In x l -> f x = false) -> List.filter f l = [].
Proof.
  induction l as [|x l IH]; intros H; [reflexivity|]. simpl.
  rewrite (H x) by now left. apply IH. intros y Hy. apply H. now right.
Qed.

(** The answer over a window without events. *)
Lemma get_statistics_nothing (srv : server) (args : statistics_args)
    (tbl : dose_log) (n lo : Z) :
  db_fault srv = None ->
  days_of args = inr n ->
  Py.minus_days (now srv) n = inr lo ->
  Pg.window lo (now srv) tbl = [] ->
  get_statistics srv args tbl
  = mk_response 200 (Statistics n (mk_statistics 0 0 0 (PyInt 0) 0 0) ∅).
Proof.
  intros Hdb Hn Hlo Hw.
  rewrite (get_statistics_ok srv args tbl n lo Hdb Hn Hlo).
  unfold Pg.select_daily_events. rewrite Hw. reflexivity.
Qed.

(** X11: a negative [days] is accepted: the window then starts after it
    ends, no stored event lies in it, and the answer is 200 with all
    totals, the adherence and both streaks 0 and an empty breakdown,
    whatever the table holds. *)
Theorem get_statistics_negative_days (srv : server)
    (args : statistics_args) (tbl : dose_log) (n lo : Z) :
  db_fault srv = None ->
  days_of args = inr n ->
  n < 0 ->
  Py.minus_days (now srv) n = inr lo ->
  get_statistics srv args tbl
  = mk_response 200 (Statistics n (mk_statistics 0 0 0 (PyInt 0) 0 0) ∅).
Proof.
  intros Hdb Hn Hneg Hlo.
  apply (get_statistics_nothing srv args tbl n lo Hdb Hn Hlo).
  apply minus_days_inv in Hlo. apply filter_none. intros r _.
  unfold Pg.in_window.
  destruct (lo <=? timestamp r) eqn:E1; [|reflexivity].
  destruct (timestamp r <=? now srv) eqn:E2; [|reflexivity].
  apply Z.leb_le in E1, E2.
  unfold Calendar.usec_per_day, Calendar.usec_per_second in Hlo. lia.
Qed.

Lemma get_statistics_negative_days_witness :
  get_statistics Sample.srv Requests.next_week Sample.two_full_days
  = mk_response 200
      (Statistics (-7) (mk_statistics 0 0 0 (PyInt 0) 0 0) ∅).
Proof.
  apply (get_statistics_negative_days Sample.srv Requests.next_week
           Sample.two_full_days (-7)
           (Sample.noon + 7 * Calendar.usec_per_day));
    [reflexivity | reflexivity | lia | reflexivity].
Defined.

(** ** GET /api/statistics: how its numbers hang together *)

(** *** Counting by date *)

Lemma sum_over_zero (ds : list Z) : sum_over (fun _ => 0) ds = 0.
Proof. induction ds as [|d ds IH]; simpl; [reflexivity | now rewrite IH]. Qed.

Lemma sum_over_plus (f g : Z -> Z) (ds : list Z) :
  sum_over (fun d => f d + g d) ds = sum_over f ds + sum_over g ds.
Proof. induction ds as [|d ds IH]; simpl; [reflexivity | rewrite IH; lia]. Qed.

Lemma sum_over_ext (f g : Z -> Z) (ds : list Z) :
  (forall d, In d ds -> f d = g d) -> sum_over f ds = sum_over g ds.
Proof.
  induction ds as [|d ds IH]; intros H; simpl; [reflexivity|].
  rewrite (H d) by now left. rewrite IH; [reflexivity|].
  intros d' Hd'. apply H. now right.
Qed.

Lemma sum_over_le (f g : Z -> Z) (ds : list Z) :
  (forall d, In d ds -> f d <= g d) -> sum_over f ds <= sum_over g ds.
Proof.
  induction ds as [|d ds IH]; intros H; simpl; [lia|].
  pose proof (H d (or_introl eq_refl)).
  assert (sum_over f ds <= sum_over g ds)
    by (apply IH; intros; apply H; now right).
  lia.
Qed.

(** One date of a duplicate-free list is counted once. *)
Lemma sum_over_indicator (x : Z) (b : Z) (ds : list Z) :
  List.NoDup ds -> In x ds ->
  sum_over (fun d => if x =? d then b else 0) ds = b.
Proof.
  induction 1 as [|d ds Hd Hnd IH]; intros Hx; [destruct Hx|]. simpl.
  destruct (x =? d) eqn:E.
  - apply Z.eqb_eq in E. subst d.
    rewrite (sum_over_ext _ (fun _ => 0)), sum_over_zero; [lia|].
    intros d' Hd'. destruct (x =? d') eqn:E'; [|reflexivity].
    apply Z.eqb_eq in E'. subst d'. contradiction.
  - apply Z.eqb_neq in E. destruct Hx as [->|Hx]; [contradiction|].
    rewrite IH by exact Hx. lia.
Qed.

Lemma count_on_cons (t : string) (d : Z) (r : dose_event)
    (w : list dose_event) :
  count_on t d (r :: w)
  = (if Pg.DATE (timestamp r) =? d
     then (if Pg.has_type t r then 1 else 0) else 0)
    + count_on t d w.
Proof.
  unfold count_on, Pg.count_star, Pg.on_date. simpl.
  destruct (Pg.DATE (timestamp r) =? d); simpl;
    [destruct (Pg.has_type t r); simpl length; lia | lia].
Qed.

(** The events of one type, counted date by date over the dates of the
    window, are all the events of that type. *)
Lemma sum_count_on (t : string) (w : list dose_event) (ds : list Z) :
  List.NoDup ds ->
  (forall r, In r w -> In (Pg.DATE (timestamp r)) ds) ->
  sum_over (fun d => count_on t d w) ds = count_of t w.
Proof.
  intros Hnd. induction w as [|r w IH]; intros Hall.
  - rewrite (sum_over_ext _ (fun _ => 0)) by reflexivity.
    apply sum_over_zero.
  - rewrite (sum_over_ext _ _ ds (fun d _ => count_on_cons t d r w)).
    rewrite sum_over_plus, IH by (intros; apply Hall; now right).
    rewrite sum_over_indicator
      by (try exact Hnd; apply Hall; now left).
    unfold count_of, Pg.count_star. simpl.
    destruct (Pg.has_type t r); simpl length; lia.
Qed.

Lemma sum_count_on_window (t : string) (w : list dose_event) :
  sum_over (fun d => count_on t d w) (Pg.group_dates w) = count_of t w.
Proof.
  apply sum_count_on.
  - apply sorted_gt_NoDup, group_dates_sorted.
  - intros r Hr. apply group_dates_In. eauto.
Qed.

Lemma count_on_le_events_on (t : string) (d : Z) (w : list dose_event) :
  0 <= count_on t d w <= events_on d w.
Proof.
  unfold count_on, events_on, Pg.count_star.
  rewrite <- filter_filter_length.
  pose proof (filter_length_le (Pg.has_type t) (List.filter (Pg.on_date d) w)).
  lia.
Qed.

(** *** Bounds on the streaks *)

Section StreakBounds.
Variable w : list dose_event.

Lemma streak_scan_bounds (ds : list Z) :
  0 <= snd (streak_scan (map (daily_row w) ds))
       <= fst (streak_scan (map (daily_row w) ds))
  /\ fst (streak_scan (map (daily_row w) ds))
     <= Z.of_nat (length (List.filter (complete w) ds)).
Proof.
  induction ds as [|d ds IH] using rev_ind; [simpl; lia|].
  rewrite map_app, List.filter_app, length_app. simpl map.
  rewrite streak_scan_snoc.
  destruct (streak_scan (map (daily_row w) ds)) as [b c].
  cbn [fst snd] in IH. rewrite streak_step_row. cbn [List.filter].
  destruct (complete w d); cbn [fst snd length]; lia.
Qed.

Lemma complete_days_taken (ds : list Z) :
  3 * Z.of_nat (length (List.filter (complete w) ds))
  <= sum_over (fun d => count_on "TAKEN" d w) ds.
Proof.
  induction ds as [|d ds IH]; simpl; [lia|].
  pose proof (count_on_le_events_on "TAKEN" d w).
  destruct (complete w d) eqn:E; simpl length; [|lia].
  unfold complete in E. apply Z.leb_le in E. lia.
Qed.

Lemma streak_scan_none_complete (ds : list Z) :
  (forall d, In d ds -> complete w d = false) ->
  streak_scan (map (daily_row w) ds) = (0, 0).
Proof.
  induction ds as [|d ds IH] using rev_ind; intros Hnone; [reflexivity|].
  rewrite map_app. simpl map. rewrite streak_scan_snoc.
  rewrite IH by (intros d' Hd'; apply Hnone, in_or_app; now left).
  rewrite streak_step_row, Hnone by (apply in_or_app; right; now left).
  reflexivity.
Qed.

Lemma streak_scan_some_complete (ds : list Z) (d : Z) :
  In d ds -> complete w d = true ->
  1 <= fst (streak_scan (map (daily_row w) ds)).
Proof.
  induction ds as [|x ds IH] using rev_ind; intros Hin Hd; [destruct Hin|].
  rewrite map_app. simpl map. rewrite streak_scan_snoc.
  pose proof (streak_scan_bounds ds) as Hb.
  destruct (streak_scan (map (daily_row w) ds)) as [b c].
  cbn [fst snd] in Hb, IH. rewrite streak_step_row.
  destruct (complete w x) eqn:Ex; cbn [fst]; [lia|].
  apply in_app_or in Hin as [Hin|[->|[]]]; [now apply IH | congruence].
Qed.

End StreakBounds.

(** X12: on every window, [0 <= current_streak <= best_streak], the best
    streak is at most the number of dates that have events, and it takes
    three TAKEN events per day of a streak:
    [3 * best_streak <= doses_taken]. *)
Theorem streaks_are_bounded (srv : server) (args : statistics_args)
    (tbl : dose_log) (n lo : Z) :
  db_fault srv = None ->
  days_of args = inr n ->
  Py.minus_days (now srv) n = inr lo ->
  let w := Pg.window lo (now srv) tbl in
  exists st,
    statistics_of (get_statistics srv args tbl) = Some st
    /\ 0 <= current_streak st <= best_streak st
    /\ best_streak st <= Z.of_nat (length (Pg.group_dates w))
    /\ 3 * best_streak st <= doses_taken st.
Proof.
  intros Hdb Hn Hlo w.
  rewrite (get_statistics_ok srv args tbl n lo Hdb Hn Hlo).
  eexists. split; [reflexivity|].
  cbn [current_streak best_streak doses_taken]. fold w.
  pose proof (streak_scan_bounds w (Pg.group_dates w)) as [Hcb Hbk].
  pose proof (complete_days_taken w (Pg.group_dates w)) as Htk.
  rewrite sum_count_on_window in Htk.
  pose proof (filter_length_le (complete w) (Pg.group_dates w)).
  repeat split; lia.
Qed.

Lemma streaks_are_bounded_witness :
  exists st,
    statistics_of (get_statistics Sample.srv Sample.thirty_days
                     Sample.three_full_days) = Some st
    /\ 0 <= current_streak st <= best_streak st
    /\ 3 * best_streak st <= doses_taken st.
Proof.
  destruct (streaks_are_bounded Sample.srv Sample.thirty_days
              Sample.three_full_days 30 Sample.month_start)
    as (st & Hst & Hcb & _ & Htk); try reflexivity.
  exists st. split; [exact Hst|]. split; [exact Hcb | exact Htk].
Defined.

(** X13: [best_streak] is 0 exactly when no date of the window has 3 or
    more TAKEN events. *)
Theorem best_streak_zero_iff (srv : server) (args : statistics_args)
    (tbl : dose_log) (n lo : Z) :
  db_fault srv = None ->
  days_of args = inr n ->
  Py.minus_days (now srv) n = inr lo ->
  let w := Pg.window lo (now srv) tbl in
  exists st,
    statistics_of (get_statistics srv args tbl) = Some st
    /\ (best_streak st = 0 <-> forall d, count_on "TAKEN" d w < 3).
Proof.
  intros Hdb Hn Hlo w.
  rewrite (get_statistics_ok srv args tbl n lo Hdb Hn Hlo).
  eexists. split; [reflexivity|]. cbn [best_streak]. fold w. split.
  - intros Hzero d.
    destruct (Z.lt_ge_cases (count_on "TAKEN" d w) 3) as [Hlt|Hge];
      [exact Hlt|].
    pose proof (count_on_le_events_on "TAKEN" d w) as Hev.
    assert (Hin : In d (Pg.group_dates w))
      by (apply group_dates_events_on; lia).
    assert (Hc : complete w d = true) by (apply Z.leb_le; exact Hge).
    pose proof (streak_scan_some_complete w _ d Hin Hc). lia.
  - intros Hnone. rewrite streak_scan_none_complete; [reflexivity|].
    intros d _. apply Z.leb_gt, Hnone.
Qed.

Lemma best_streak_zero_iff_witness :
  exists st,
    statistics_of (get_statistics Sample.srv Sample.thirty_days
                     Sample.empty) = Some st
    /\ best_streak st = 0.
Proof.
  destruct (best_streak_zero_iff Sample.srv Sample.thirty_days
              Sample.empty 30 Sample.month_start)
    as (st & Hst & Hiff); try reflexivity.
  exists st. split; [exact Hst|]. apply Hiff. intros d. reflexivity.
Defined.

Lemma run_length_nonneg (w : list dose_event) (ds : list Z) :
  0 <= run_length w ds.
Proof.
  induction ds as [|d ds IH]; simpl; [lia|]. destruct (complete w d); lia.
Qed.

(** X14: [current_streak] is the length of the unbroken run of complete
    days counted from the oldest date of the window towards the newer
    ones, since the scan goes from the newest date to the oldest and the
    counter is read after it.  So it is 0 exactly when the oldest date has
    fewer than 3 TAKEN events (or the window has no events), whatever the
    most recent dates look like. *)
Theorem current_streak_counts_from_oldest_date (srv : server)
    (args : statistics_args) (tbl : dose_log) (n lo : Z) :
  db_fault srv = None ->
  days_of args = inr n ->
  Py.minus_days (now srv) n = inr lo ->
  let w := Pg.window lo (now srv) tbl in
  exists st,
    statistics_of (get_statistics srv args tbl) = Some st
    /\ current_streak st = run_length w (rev (Pg.group_dates w))
    /\ (forall oldest newer,
          rev (Pg.group_dates w) = oldest :: newer ->
          (current_streak st = 0 <-> count_on "TAKEN" oldest w < 3)).
Proof.
  intros Hdb Hn Hlo w.
  destruct (current_streak_is_oldest_run srv args tbl n lo Hdb Hn Hlo)
    as (st & Hst & Hrun).
  exists st. split; [exact Hst|]. split; [exact Hrun|].
  intros oldest newer Hrev. fold w in Hrun. rewrite Hrun, Hrev.
  cbn [run_length]. unfold complete.
  pose proof (run_length_nonneg w newer).
  destruct (3 <=? count_on "TAKEN" oldest w) eqn:E;
    [apply Z.leb_le in E | apply Z.leb_gt in E]; split; intros; lia.
Qed.

Lemma current_streak_counts_from_oldest_date_witness :
  exists st,
    statistics_of (get_statistics Sample.srv Sample.thirty_days
                     Sample.three_full_days) = Some st
    /\ current_streak st
       = run_length (Sample.logged Sample.three_full_days)
           [Sample.today - 3; Sample.today - 2; Sample.today - 1;
            Sample.today].
Proof.
  destruct (current_streak_counts_from_oldest_date Sample.srv
              Sample.thirty_days Sample.three_full_days 30
              Sample.month_start eq_refl eq_refl eq_refl)
    as (st & Hst & Hrun & _).
  exists st. split; [exact Hst | exact Hrun].
Defined.

(** *** The breakdown against the totals *)

Lemma foldr_sum_perm {A : Type} (g : A -> Z) (l l' : list A) :
  Permutation l l' ->
  foldr (fun x acc => g x + acc) 0 l = foldr (fun x acc => g x + acc) 0 l'.
Proof.
  induction 1 as [|x l l' _ IH|x y l|l l' l'' _ IH1 _ IH2]; simpl;
    [reflexivity | now rewrite IH | lia | congruence].
Qed.

Lemma breakdown_sum_foldr (f : day_counts -> Z) (bd : gmap Z day_counts) :
  breakdown_sum f bd
  = foldr (fun p acc => f (snd p) + acc) 0 (map_to_list bd).
Proof.
  unfold breakdown_sum. rewrite map_fold_foldr.
  induction (map_to_list bd) as [|[d c] l IH]; simpl; [reflexivity|].
  now rewrite IH.
Qed.

Lemma fmap_fst_pair {B : Type} (g : Z -> B) (l : list Z) :
  ((fun d => (d, g d)) <$> l).*1 = l.
Proof. induction l as [|x l IH]; [reflexivity|]. simpl. f_equal. exact IH. Qed.

(** The breakdown is the map from each date of the window to its
    counts. *)
Lemma breakdown_as_list (lo hi : Z) (tbl : dose_log) :
  let w := Pg.window lo hi tbl in
  breakdown (Pg.select_daily_events lo hi tbl)
  = list_to_map
      ((fun d => (d, mk_counts (count_on "TAKEN" d w)
                               (count_on "MISSED" d w)))
         <$> Pg.group_dates w).
Proof.
  intros w. apply map_eq. intros d.
  rewrite (breakdown_lookup lo hi tbl d). fold w.
  set (L := _ <$> Pg.group_dates w).
  assert (Hfst : L.*1 = Pg.group_dates w) by apply fmap_fst_pair.
  destruct (1 <=? events_on d w) eqn:E.
  - apply Z.leb_le, group_dates_events_on in E. symmetry.
    apply elem_of_list_to_map.
    + rewrite Hfst. apply NoDup_ListNoDup, sorted_gt_NoDup, group_dates_sorted.
    + unfold L. apply list_elem_of_fmap. exists d. split; [reflexivity|].
      now apply list_elem_of_In.
  - symmetry. apply not_elem_of_list_to_map_1. rewrite Hfst.
    rewrite list_elem_of_In, group_dates_events_on.
    apply Z.leb_gt in E. lia.
Qed.

Lemma breakdown_sum_by_date (f : day_counts -> Z) (lo hi : Z)
    (tbl : dose_log) :
  let w := Pg.window lo hi tbl in
  breakdown_sum f (breakdown (Pg.select_daily_events lo hi tbl))
  = sum_over (fun d => f (mk_counts (count_on "TAKEN" d w)
                                    (count_on "MISSED" d w)))
             (Pg.group_dates w).
Proof.
  intros w. rewrite breakdown_sum_foldr, (breakdown_as_list lo hi tbl). fold w.
  set (L := _ <$> Pg.group_dates w).
  assert (Hnd : NoDup (L.*1)).
  { unfold L. rewrite fmap_fst_pair.
    apply NoDup_ListNoDup, sorted_gt_NoDup, group_dates_sorted. }
  rewrite (foldr_sum_perm (fun p => f (snd p)) _ _
             (map_to_list_to_map L Hnd)).
  unfold L. clear L Hnd.
  induction (Pg.group_dates w) as [|d l IH]; [reflexivity|].
  simpl. f_equal. exact IH.
Qed.

(** X15: the daily breakdown adds up to the totals: its [taken] counts
    sum to [doses_taken] and its [missed] counts to [doses_missed]. *)
Theorem breakdown_adds_up_to_totals (srv : server)
    (args : statistics_args) (tbl : dose_log) (n lo : Z) :
  db_fault srv = None ->
  days_of args = inr n ->
  Py.minus_days (now srv) n = inr lo ->
  exists st bd,
    payload (get_statistics srv args tbl) = Statistics n st bd
    /\ breakdown_sum taken bd = doses_taken st
    /\ breakdown_sum missed bd = doses_missed st.
Proof.
  intros Hdb Hn Hlo.
  rewrite (get_statistics_ok srv args tbl n lo Hdb Hn Hlo).
  do 2 eexists. split; [reflexivity|].
  cbn [doses_taken doses_missed].
  rewrite !breakdown_sum_by_date. cbn [taken missed].
  split; apply sum_count_on_window.
Qed.

Lemma breakdown_adds_up_to_totals_witness :
  exists st bd,
    payload (get_statistics Sample.srv Sample.thirty_days
               Sample.two_full_days) = Statistics 30 st bd
    /\ breakdown_sum taken bd = doses_taken st
    /\ breakdown_sum missed bd = doses_missed st.
Proof.
  exact (breakdown_adds_up_to_totals Sample.srv Sample.thirty_days
           Sample.two_full_days 30 Sample.month_start
           eq_refl eq_refl eq_refl).
Defined.

(** *** Events outside the window, and events just logged *)

(** X16: the window is [now - days * 86400 s, now], both ends included.
    A row stamped before its start or after the time of the request
    changes no part of the answer, wherever it sits in the table; a row
    stamped within it, the two ends included, adds one to
    [total_doses]. *)
Theorem statistics_window_bounds (srv : server) (args : statistics_args)
    (before after : list dose_event) (e : dose_event) (i i' : Z)
    (n lo : Z) :
  db_fault srv = None ->
  days_of args = inr n ->
  Py.minus_days (now srv) n = inr lo ->
  let start := now srv - n * 86400000000 in
  let tbl := mk_log (before ++ after) i in
  let tbl' := mk_log (before ++ e :: after) i' in
  (timestamp e < start \/ now srv < timestamp e ->
   get_statistics srv args tbl' = get_statistics srv args tbl)
  /\ (start <= timestamp e <= now srv ->
      exists st st',
        statistics_of (get_statistics srv args tbl) = Some st
        /\ statistics_of (get_statistics srv args tbl') = Some st'
        /\ total_doses st' = total_doses st + 1).
Proof.
  intros Hdb Hn Hlo start tbl tbl'.
  assert (Hstart : lo = start).
  { apply minus_days_inv in Hlo. unfold start. rewrite Hlo.
    reflexivity. }
  assert (Hw : Pg.window lo (now srv) tbl'
               = List.filter (Pg.in_window lo (now srv)) before
                 ++ (if Pg.in_window lo (now srv) e then [e] else [])
                 ++ List.filter (Pg.in_window lo (now srv)) after).
  { unfold Pg.window, tbl'. cbn [rows]. rewrite List.filter_app.
    cbn [List.filter]. now destruct (Pg.in_window lo (now srv) e). }
  assert (Hw0 : Pg.window lo (now srv) tbl
                = List.filter (Pg.in_window lo (now srv)) before
                  ++ List.filter (Pg.in_window lo (now srv)) after).
  { unfold Pg.window, tbl. cbn [rows]. apply List.filter_app. }
  rewrite (get_statistics_ok srv args tbl n lo Hdb Hn Hlo).
  rewrite (get_statistics_ok srv args tbl' n lo Hdb Hn Hlo).
  unfold Pg.select_daily_events. cbv zeta. rewrite Hw, Hw0. split.
  - intros Hout.
    assert (Hno : Pg.in_window lo (now srv) e = false).
    { unfold Pg.in_window. rewrite Hstart.
      destruct (start <=? timestamp e) eqn:E1; [|reflexivity].
      destruct (timestamp e <=? now srv) eqn:E2; [|reflexivity].
      apply Z.leb_le in E1, E2. lia. }
    rewrite Hno. reflexivity.
  - intros Hin.
    assert (Hyes : Pg.in_window lo (now srv) e = true).
    { unfold Pg.in_window. rewrite Hstart. apply andb_true_intro.
      split; apply Z.leb_le; lia. }
    rewrite Hyes. do 2 eexists. split; [reflexivity|].
    split; [reflexivity|]. cbn [total_doses]. unfold Pg.count_star.
    rewrite !length_app. simpl length. lia.
Qed.

Lemma statistics_window_bounds_witness :
  get_statistics Sample.srv Sample.thirty_days
    (mk_log (Requests.just_too_old :: rows Sample.two_full_days) 10)
  = get_statistics Sample.srv Sample.thirty_days Sample.two_full_days
  /\ get_statistics Sample.srv Sample.thirty_days
       (mk_log (rows Sample.two_full_days ++ [Requests.just_too_new]) 10)
     = get_statistics Sample.srv Sample.thirty_days Sample.two_full_days
  /\ exists st',
       statistics_of
         (get_statistics Sample.srv Sample.thirty_days
            (mk_log (Requests.on_the_edge :: rows Sample.two_full_days) 10))
       = Some st'
       /\ total_doses st' = 10.
Proof.
  split; [|split].
  - apply (proj1 (statistics_window_bounds Sample.srv Sample.thirty_days
                    [] (rows Sample.two_full_days) Requests.just_too_old
                    10 10 30 Sample.month_start eq_refl eq_refl eq_refl)).
    left. reflexivity.
  - pose proof (proj1 (statistics_window_bounds Sample.srv
                         Sample.thirty_days
                         (rows Sample.two_full_days) []
                         Requests.just_too_new
                         10 10 30 Sample.month_start
                         eq_refl eq_refl eq_refl)) as H.
    cbv zeta in H. rewrite app_nil_r in H. apply H.
    right. reflexivity.
  - destruct (proj2 (statistics_window_bounds Sample.srv
                       Sample.thirty_days
                       [] (rows Sample.two_full_days) Requests.on_the_edge
                       10 10 30 Sample.month_start eq_refl eq_refl eq_refl))
      as (st & st' & Hst & Hst' & Htot).
    + split; vm_compute; discriminate.
    + exists st'. split; [exact Hst'|].
      vm_compute in Hst. injection Hst as <-. exact Htot.
Defined.

Lemma count_on_snoc (t : string) (d : Z) (w : list dose_event)
    (e : dose_event) :
  count_on t d (w ++ [e])
  = count_on t d w
    + (if Pg.on_date d e && Pg.has_type t e then 1 else 0).
Proof.
  unfold count_on, Pg.count_star. rewrite List.filter_app, length_app.
  simpl. destruct (Pg.on_date d e && Pg.has_type t e); simpl; lia.
Qed.

Lemma events_on_snoc (d : Z) (w : list dose_event) (e : dose_event) :
  events_on d (w ++ [e])
  = events_on d w + (if Pg.on_date d e then 1 else 0).
Proof.
  unfold events_on, Pg.count_star. rewrite List.filter_app, length_app.
  simpl. destruct (Pg.on_date d e); simpl; lia.
Qed.

(** X17: a dose that [log_dose] has stored shows in the statistics of a
    later request whose window reaches back to the time of the insertion
    ([now' - days <= now <= now'], with [now] the clock of the POST and
    [now'] that of the GET): [total_doses] is one more, [doses_taken] is
    one more when the type is TAKEN and [doses_missed] when it is MISSED,
    and the entry of the breakdown for the day of the insertion holds
    that day's counts with the same additions. *)
Theorem logged_dose_is_counted (srv srv' : server) (args : statistics_args)
    (tbl : dose_log) (m : gmap string json) (s : string) (dn : option Z)
    (n lo : Z) :
  db_fault srv = None ->
  m !! "event_type" = Some (JStr s) ->
  Pg.adapt_dose_number (default JNull (m !! "dose_number")) = Some dn ->
  db_fault srv' = None ->
  days_of args = inr n ->
  Py.minus_days (now srv') n = inr lo ->
  now srv' - n * 86400000000 <= now srv <= now srv' ->
  let tbl' := snd (log_dose srv (Some (JObj m)) tbl) in
  let w := Pg.window lo (now srv') tbl in
  let day := Pg.DATE (now srv) in
  let one (t : string) := if String.eqb s t then 1 else 0 in
  exists st st' bd',
    statistics_of (get_statistics srv' args tbl) = Some st
    /\ payload (get_statistics srv' args tbl') = Statistics n st' bd'
    /\ total_doses st' = total_doses st + 1
    /\ doses_taken st' = doses_taken st + one "TAKEN"
    /\ doses_missed st' = doses_missed st + one "MISSED"
    /\ bd' !! day
       = Some (mk_counts (count_on "TAKEN" day w + one "TAKEN")
                         (count_on "MISSED" day w + one "MISSED")).
Proof.
  intros Hdb Het Hdn Hdb' Hn Hlo Hreach tbl' w day one. subst tbl'.
  rewrite (log_dose_stores srv tbl m s dn Hdb Het Hdn). cbn [snd].
  rewrite (get_statistics_ok srv' args tbl n lo Hdb' Hn Hlo).
  rewrite (get_statistics_ok srv' args _ n lo Hdb' Hn Hlo).
  do 3 eexists. split; [reflexivity|]. split; [reflexivity|].
  cbn [total_doses doses_taken doses_missed].
  rewrite breakdown_lookup. rewrite !window_app. fold w.
  assert (Hin : Pg.in_window lo (now srv') (logged_event srv tbl s dn) = true).
  { apply minus_days_inv in Hlo. unfold Pg.in_window, logged_event.
    cbn [timestamp]. apply andb_true_intro.
    unfold Calendar.usec_per_day, Calendar.usec_per_second in Hlo.
    split; apply Z.leb_le; lia. }
  rewrite Hin.
  rewrite !count_of_snoc, !count_on_snoc, events_on_snoc.
  unfold Pg.on_date, Pg.has_type, logged_event. cbn [timestamp event_type].
  fold day. rewrite Z.eqb_refl. cbn [andb]. fold (one "TAKEN").
  fold (one "MISSED").
  split; [unfold Pg.count_star; rewrite length_app; simpl length; lia|].
  split; [reflexivity|]. split; [reflexivity|].
  pose proof (count_on_le_events_on "TAKEN" day w).
  destruct (1 <=? events_on day w + 1) eqn:E; [reflexivity|].
  apply Z.leb_gt in E. lia.
Qed.

Lemma logged_dose_is_counted_witness :
  exists st',
    statistics_of
      (get_statistics Requests.later Sample.thirty_days
         (snd (log_dose Sample.srv (Some (JObj Requests.taken_2))
                 Sample.two_full_days))) = Some st'
    /\ total_doses st' = 10 /\ doses_taken st' = 8 /\ doses_missed st' = 2.
Proof.
  destruct (logged_dose_is_counted Sample.srv Requests.later
              Sample.thirty_days
              Sample.two_full_days Requests.taken_2 "TAKEN" (Some 2)
              30 (Sample.noon + 3600 * 1000000 - 30 * 86400000000))
    as (st & st' & bd' & Hst & Hst' & Htot & Htk & Hms & _);
    try (vm_compute; reflexivity); [split; vm_compute; discriminate|].
  exists st'. unfold statistics_of. rewrite Hst'.
  split; [reflexivity|].
  vm_compute in Hst. injection Hst as <-. cbn in Htot, Htk, Hms.
  repeat split; assumption.
Defined.
